(** * runboat: the controller (src/runboat/controller.py)

    A shallow embedding of [Controller]: its aggregate properties, the
    public entry point [deploy_or_delay_start], the two event watchers,
    the three capacity schedulers, the [walking_dead] supervisor and
    [start] / [stop].

    Every coroutine is a computation in a small state-and-outcome monad
    [M].  The state is the [World]: the controller object, the asyncio
    tasks it created, and the trace of everything the coroutine did that
    is visible outside it (log calls, wake-up signals, awaited calls).
    How an awaited call ends (returns, raises, is cancelled, or has not
    resolved yet) is decided by the environment [Env], a function of the
    trace so far, so that the same call may fail once and succeed later. *)

From Stdlib Require Import ZArith Lia.
From stdpp Require Import base strings list gmap pretty.

Local Open Scope Z_scope.
Local Open Scope string_scope.

(** ** models.py *)

Module BuildStatus.
Inductive t := deploying | started | stopped | undeployed.
Definition eqb (a b : t) : bool :=
  match a, b with
  | deploying, deploying | started, started
  | stopped, stopped | undeployed, undeployed => true
  | _, _ => false
  end.
End BuildStatus.

Module BuildInitStatus.
Inductive t := todo | started | succeeded | failed.
Definition eqb (a b : t) : bool :=
  match a, b with
  | todo, todo | started, started
  | succeeded, succeeded | failed, failed => true
  | _, _ => false
  end.
End BuildInitStatus.

(** Modelled from the spec: the [Build] entity of models.py, with the
    attributes section 3 of the specification gives it. *)
Record Build := {
  name : string;
  repo : string;
  target_branch : string;
  pr : option Z;
  git_commit : string;
  status : BuildStatus.t;
  init_status : BuildInitStatus.t;
  last_transition_time : Z;
}.

(** ** db.py *)

(** Modelled from the spec: [BuildsDb] of db.py, an index holding at most
    one build per name, kept as the rows in arrival order.  The queries
    are those section 3 and section 4.2 of the specification list. *)
Module BuildsDb.

Definition t := list Build.

Definition empty : t := [].

Definition get (db : t) (n : string) : option Build :=
  List.find (fun b => String.eqb (name b) n) db.

Definition remove (db : t) (n : string) : t :=
  List.filter (fun b => negb (String.eqb (name b) n)) db.

(** insert, or replace the row of the same name where it stands *)
Fixpoint add (db : t) (b : Build) : t :=
  match db with
  | [] => [b]
  | x :: rest =>
      if String.eqb (name x) (name b) then b :: rest else x :: add rest b
  end.

Definition same_commit (r tb : string) (p : option Z) (c : string)
    (b : Build) : bool :=
  String.eqb (repo b) r && String.eqb (target_branch b) tb
  && bool_decide (pr b = p) && String.eqb (git_commit b) c.

Definition get_for_commit (db : t) (r tb : string) (p : option Z)
    (c : string) : option Build :=
  List.find (same_commit r tb p c) db.

Definition count_by_status (db : t) (s : BuildStatus.t) : Z :=
  Z.of_nat (length (List.filter (fun b => BuildStatus.eqb (status b) s) db)).

Definition count_by_init_status (db : t) (s : BuildInitStatus.t) : Z :=
  Z.of_nat
    (length (List.filter (fun b => BuildInitStatus.eqb (init_status b) s) db)).

Definition count_all (db : t) : Z := Z.of_nat (length db).

(** oldest first: by [last_transition_time], ties by name *)
Definition older (a b : Build) : bool :=
  (last_transition_time a <? last_transition_time b)%Z
  || ((last_transition_time a =? last_transition_time b)%Z
      && String.leb (name a) (name b)).

Fixpoint insert_by_age (b : Build) (l : list Build) : list Build :=
  match l with
  | [] => [b]
  | x :: rest => if older b x then b :: l else x :: insert_by_age b rest
  end.

Definition oldest_first (l : list Build) : list Build :=
  List.fold_right insert_by_age [] l.

Definition to_initialize (db : t) (limit : Z) : list Build :=
  firstn (Z.to_nat limit)
    (List.filter
       (fun b => BuildInitStatus.eqb (init_status b) BuildInitStatus.todo) db).

Definition oldest_started (db : t) (limit : Z) : list Build :=
  firstn (Z.to_nat limit)
    (oldest_first
       (List.filter
          (fun b => BuildStatus.eqb (status b) BuildStatus.started) db)).

Definition oldest_stopped (db : t) (limit : Z) : list Build :=
  firstn (Z.to_nat limit)
    (oldest_first
       (List.filter
          (fun b => BuildStatus.eqb (status b) BuildStatus.stopped) db)).

End BuildsDb.

(** ** settings.py and k8s.py *)

(** The three limits of [settings] the controller reads. *)
Record Settings := {
  max_started : Z;
  max_initializing : Z;
  max_deployed : Z;
}.

(** A deployment as the watcher uses it: [kind], [metadata.labels], and
    the build that [Build.from_deployment] derives from the resource
    ([from_deployment] is not under src: its result is a field here). *)
Record Deployment := {
  deployment_kind : string;
  deployment_labels : gmap string string;
  from_deployment : Build;
}.

(** [job.status.succeeded] and [job.status.failed] are optional counts;
    the watcher tests their truth value. *)
Record JobStatus := {
  succeeded : option Z;
  failed : option Z;
}.

Record Job := {
  job_resource_kind : string;
  job_labels : gmap string string;
  job_status : JobStatus;
}.

(** ** The world a coroutine runs in *)

(** Exceptions deriving from [Exception].  Cancellation is not one of
    them: [asyncio.CancelledError] derives from [BaseException] and is a
    separate outcome. *)
Inductive exn :=
| TimeoutError
| Error (msg : string).

(** How a computation ends: it returns, raises, is cancelled at an await,
    or is still suspended when the observation stops. *)
Inductive Outcome (A : Type) :=
| Done (a : A)
| Raised (e : exn)
| Cancelled
| Pending.
Arguments Done {A} a.
Arguments Raised {A} e.
Arguments Cancelled {A}.
Arguments Pending {A}.

(** The coroutine methods of [Build] that take no argument. *)
Module Method.
Inductive t :=
| start | stop | undeploy | initialize
| on_initialize_started | on_initialize_succeeded | on_initialize_failed
| on_cleanup_started | on_cleanup_succeeded | on_cleanup_failed.
End Method.

(** Everything the controller awaits. *)
Inductive Call :=
| Build_deploy (repo target_branch : string) (pr : option Z) (git_commit : string)
| Build_call (m : Method.t) (b : Build)
| Build_from_name (build_name : string)
| watch_deployments_next
| watch_jobs_next
| wakeup_event_wait (timeout : Z)
| asyncio_sleep (delay : Z)
| asyncio_gather (tasks : list nat).

Inductive LogLevel := DEBUG | INFO | ERROR | EXCEPTION.

Inductive Effect :=
| Log (level : LogLevel) (msg : string)
| EventSet
| EventClear
| Await (c : Call).

(** The environment: the settings, how each awaited call ends given the
    trace so far, and the values the calls that return one deliver. *)
Record Env := {
  settings : Settings;
  resolve : list Effect -> Call -> Outcome unit;
  from_name : list Effect -> string -> option Build;
  next_deployment : list Effect -> option (string * Deployment);
  next_job : list Effect -> option (string * Job);
}.

(** The background loops [start] creates a task for. *)
Inductive LoopFn :=
| deployment_watcher_fn | job_watcher_fn
| initializer_fn | stopper_fn | undeployer_fn.

Record Task := {
  task_coro : LoopFn;
  task_cancel_requested : bool;
}.

(** The attributes of a [Controller] instance.  [_tasks] holds task
    handles (positions in the task table of the event loop); [_task] is
    the attribute that [stop] creates, absent until then. *)
Record Controller := {
  db : BuildsDb.t;
  _tasks : list nat;
  _wakeup_event : bool;
  _task : option (list nat);
}.

Record World := {
  env : Env;
  controller : Controller;
  loop_tasks : list Task;
  trace : list Effect;
}.

Definition set_controller (c : Controller) (w : World) : World :=
  {| env := env w; controller := c; loop_tasks := loop_tasks w; trace := trace w |}.

Definition set_loop_tasks (ts : list Task) (w : World) : World :=
  {| env := env w; controller := controller w; loop_tasks := ts; trace := trace w |}.

Definition record_effect (e : Effect) (w : World) : World :=
  {| env := env w; controller := controller w; loop_tasks := loop_tasks w;
     trace := trace w ++ [e] |}.

(** ** The monad *)

Definition M (A : Type) : Type := World -> Outcome A * World.

Definition ret {A} (a : A) : M A := fun w => (Done a, w).

Definition bind {A B} (m : M A) (k : A -> M B) : M B := fun w =>
  match m w with
  | (Done a, w') => k a w'
  | (Raised e, w') => (Raised e, w')
  | (Cancelled, w') => (Cancelled, w')
  | (Pending, w') => (Pending, w')
  end.

Notation "'let*' x ':=' m 'in' k" := (bind m (fun x => k))
  (at level 10, x pattern, m at level 100, k at level 200).
Notation "m ';;' k" := (bind m (fun _ => k))
  (at level 100, k at level 200, right associativity).

Definition get_world : M World := fun w => (Done w, w).

Definition modify_controller (f : Controller -> Controller) : M unit := fun w =>
  (Done tt, set_controller (f (controller w)) w).

Definition pending {A} : M A := fun w => (Pending, w).

Definition emit (e : Effect) : M unit := fun w =>
  (Done tt, record_effect e w).

Definition log (level : LogLevel) (msg : string) : M unit :=
  emit (Log level msg).

(** [await c]: the call is made, and ends as the environment decides *)
Definition await_value {A} (c : Call) (value : Env -> list Effect -> A) : M A :=
  fun w =>
    let w' := record_effect (Await c) w in
    match resolve (env w) (trace w) c with
    | Done _ => (Done (value (env w) (trace w)), w')
    | Raised e => (Raised e, w')
    | Cancelled => (Cancelled, w')
    | Pending => (Pending, w')
    end.

Definition await (c : Call) : M unit := await_value c (fun _ _ => tt).

(** [try: m  except Exception: handler] *)
Definition try_except {A} (m : M A) (handler : exn -> M A) : M A := fun w =>
  match m w with
  | (Raised e, w') => handler e w'
  | r => r
  end.

(** [with contextlib.suppress(asyncio.TimeoutError): m] *)
Definition suppress_TimeoutError (m : M unit) : M unit := fun w =>
  match m w with
  | (Raised TimeoutError, w') => (Done tt, w')
  | r => r
  end.

(** [for x in l: body x] *)
Fixpoint for_each {A} (l : list A) (body : A -> M unit) : M unit :=
  match l with
  | [] => ret tt
  | x :: rest => body x ;; for_each rest body
  end.

(** [while True: body], observed for at most [fuel] iterations *)
Fixpoint while_true (fuel : nat) (body : M unit) : M unit :=
  match fuel with
  | O => pending
  | S n => body ;; while_true n body
  end.

(** [async for event_type, r in stream: body event_type r], observed for
    at most [fuel] items; [None] from [next] is the end of the stream *)
Fixpoint async_for {R} (fuel : nat) (next : M (option (string * R)))
    (body : string -> R -> M unit) : M unit :=
  match fuel with
  | O => pending
  | S n =>
      let* item := next in
      match item with
      | None => ret tt
      | Some (event_type, r) => body event_type r ;; async_for n next body
      end
  end.

(** Python truth value of an optional string and of an optional count *)
Definition truthy_str (s : option string) : bool :=
  match s with
  | None => false
  | Some s => negb (String.eqb s "")
  end.

Definition truthy_int (n : option Z) : bool :=
  match n with
  | None => false
  | Some n => negb (n =? 0)%Z
  end.

(** what an f-string prints for an optional string *)
Definition fmt (s : option string) : string :=
  match s with
  | None => "None"
  | Some s => s
  end.

(** ** controller.py: class Controller *)

(** [__init__] followed by [reset] *)
Definition Controller_init : Controller :=
  {| db := BuildsDb.empty; _tasks := []; _wakeup_event := false; _task := None |}.

Definition set_db (d : BuildsDb.t) (c : Controller) : Controller :=
  {| db := d; _tasks := _tasks c; _wakeup_event := _wakeup_event c;
     _task := _task c |}.

Definition set_wakeup_event (f : bool) (c : Controller) : Controller :=
  {| db := db c; _tasks := _tasks c; _wakeup_event := f; _task := _task c |}.

Definition reset : M unit :=
  modify_controller (set_db BuildsDb.empty).

(** *** The aggregate properties

    [max_started], [max_initializing] and [max_deployed] of the controller
    return the setting of the same name: they are read as
    [max_started (settings (env w))] and so on. *)

Definition started (w : World) : Z :=
  BuildsDb.count_by_status (db (controller w)) BuildStatus.started.

Definition initializing (w : World) : Z :=
  BuildsDb.count_by_init_status (db (controller w)) BuildInitStatus.started.

Definition deployed (w : World) : Z :=
  BuildsDb.count_all (db (controller w)).

(** *** deploy_or_delay_start *)

Definition deploy_or_delay_start (repo target_branch : string) (pr : option Z)
    (git_commit : string) : M unit :=
  let* w := get_world in
  let build :=
    BuildsDb.get_for_commit (db (controller w)) repo target_branch pr git_commit in
  match build with
  | Some build => await (Build_call Method.start build)
  | None => await (Build_deploy repo target_branch pr git_commit)
  end.

(** *** _wakeup and _sleep *)

Definition _wakeup : M unit :=
  (modify_controller (set_wakeup_event true) ;; emit EventSet) ;;
  (modify_controller (set_wakeup_event false) ;; emit EventClear).

Definition _sleep : M unit :=
  suppress_TimeoutError (await (wakeup_event_wait 10)).

(** *** deployment_watcher *)

Definition is_added_or_modified (event_type : string) : bool :=
  String.eqb event_type "ADDED" || String.eqb event_type "MODIFIED".

(** the body of the [async for], for one event *)
Definition deployment_watcher_step (event_type : string) (deployment : Deployment)
    : M unit :=
  let build_name := deployment_labels deployment !! "runboat/build" in
  if negb (truthy_str build_name) then ret tt
  else
    log DEBUG ("k8s " ++ event_type ++ " " ++ deployment_kind deployment ++ " "
               ++ fmt build_name) ;;
    (if is_added_or_modified event_type then
       modify_controller
         (fun c => set_db (BuildsDb.add (db c) (from_deployment deployment)) c)
     else if String.eqb event_type "DELETED" then
       modify_controller
         (fun c => set_db (BuildsDb.remove (db c) (fmt build_name)) c)
     else
       log ERROR ("Unexpected k8s event type " ++ event_type ++ ".")) ;;
    _wakeup.

Definition deployment_watcher (fuel : nat) : M unit :=
  reset ;;
  async_for fuel (await_value watch_deployments_next next_deployment)
    deployment_watcher_step.

(** *** job_watcher *)

Definition is_job_kind (k : option string) : bool :=
  match k with
  | Some k => String.eqb k "initialize" || String.eqb k "cleanup"
  | None => false
  end.

(** the two [if job_kind == ...] blocks, once the build is resolved *)
Definition job_watcher_dispatch (job_kind : option string) (job : Job)
    (build : Build) : M unit :=
  (if bool_decide (job_kind = Some "initialize") then
     if truthy_int (succeeded (job_status job)) then
       await (Build_call Method.on_initialize_succeeded build)
     else if truthy_int (failed (job_status job)) then
       await (Build_call Method.on_initialize_failed build)
     else
       await (Build_call Method.on_initialize_started build)
   else ret tt) ;;
  (if bool_decide (job_kind = Some "cleanup") then
     if truthy_int (succeeded (job_status job)) then
       await (Build_call Method.on_cleanup_succeeded build)
     else if truthy_int (failed (job_status job)) then
       await (Build_call Method.on_cleanup_failed build)
     else
       await (Build_call Method.on_cleanup_started build)
   else ret tt).

(** [build = self.db.get(build_name)], and when that is [None],
    [build = await Build.from_name(build_name)] *)
Definition job_watcher_resolve_build (build_name : string) : M (option Build) :=
  let* w := get_world in
  match BuildsDb.get (db (controller w)) build_name with
  | Some build => ret (Some build)
  | None =>
      await_value (Build_from_name build_name)
        (fun e tr => from_name e tr build_name)
  end.

(** [f"k8s {event_type} {job.kind} {job_kind} {build_name}"] *)
Definition job_event_message (event_type : string) (job : Job) : string :=
  "k8s " ++ event_type ++ " " ++ job_resource_kind job ++ " "
  ++ fmt (job_labels job !! "runboat/job-kind") ++ " "
  ++ fmt (job_labels job !! "runboat/build").

(** the body of the [async for], for one event *)
Definition job_watcher_step (event_type : string) (job : Job) : M unit :=
  let build_name := job_labels job !! "runboat/build" in
  if negb (truthy_str build_name) then ret tt
  else
    let job_kind := job_labels job !! "runboat/job-kind" in
    if negb (is_job_kind job_kind) then ret tt
    else
      log DEBUG (job_event_message event_type job) ;;
      if is_added_or_modified event_type then
        let* build := job_watcher_resolve_build (fmt build_name) in
        match build with
        | None => ret tt
        | Some build => job_watcher_dispatch job_kind job build
        end
      else if String.eqb event_type "DELETED" then ret tt
      else log ERROR ("Unexpected k8s event type " ++ event_type ++ ".").

Definition job_watcher (fuel : nat) : M unit :=
  async_for fuel (await_value watch_jobs_next next_job) job_watcher_step.

(** *** initializer, stopper, undeployer *)

Definition is_empty {A} (l : list A) : bool :=
  match l with
  | [] => true
  | _ :: _ => false
  end.

(** one pass of the loop body, after [_sleep] has returned *)
Definition initializer_wake : M unit :=
  let* w := get_world in
  let can_initialize := max_initializing (settings (env w)) - initializing w in
  if (can_initialize <=? 0)%Z then ret tt
  else
    let to_initialize :=
      BuildsDb.to_initialize (db (controller w)) can_initialize in
    if is_empty to_initialize then ret tt
    else
      log INFO (pretty (initializing w) ++ "/"
                ++ pretty (max_initializing (settings (env w)))
                ++ " builds are initializing. Initializing "
                ++ pretty (length to_initialize) ++ " more.") ;;
      for_each to_initialize (fun build => await (Build_call Method.initialize build)).

Definition stopper_wake : M unit :=
  let* w := get_world in
  let can_stop := started w - max_started (settings (env w)) in
  if (can_stop <=? 0)%Z then ret tt
  else
    let to_stop := BuildsDb.oldest_started (db (controller w)) can_stop in
    if is_empty to_stop then ret tt
    else
      log INFO (pretty (started w) ++ "/" ++ pretty (max_started (settings (env w)))
                ++ " builds started. Stopping "
                ++ pretty (length to_stop) ++ ".") ;;
      for_each to_stop (fun build => await (Build_call Method.stop build)).

Definition undeployer_wake : M unit :=
  let* w := get_world in
  let can_undeploy := deployed w - max_deployed (settings (env w)) in
  if (can_undeploy <=? 0)%Z then ret tt
  else
    let to_undeploy := BuildsDb.oldest_stopped (db (controller w)) can_undeploy in
    if is_empty to_undeploy then ret tt
    else
      log INFO (pretty (deployed w) ++ "/" ++ pretty (max_deployed (settings (env w)))
                ++ " builds deployed. Undeploying "
                ++ pretty (length to_undeploy) ++ ".") ;;
      for_each to_undeploy (fun build => await (Build_call Method.undeploy build)).

Definition initializer (fuel : nat) : M unit :=
  while_true fuel (_sleep ;; initializer_wake).

Definition stopper (fuel : nat) : M unit :=
  while_true fuel (_sleep ;; stopper_wake).

Definition undeployer (fuel : nat) : M unit :=
  while_true fuel (_sleep ;; undeployer_wake).

(** *** start, walking_dead, stop *)

(** A coroutine function as [walking_dead] receives it: its [__name__]
    and what calling it runs. *)
Record Func := {
  __name__ : string;
  call : M unit;
}.

(** the bound method [self.<f>], its loops observed up to [fuel] *)
Definition bound_method (f : LoopFn) (fuel : nat) : Func :=
  match f with
  | deployment_watcher_fn =>
      {| __name__ := "deployment_watcher"; call := deployment_watcher fuel |}
  | job_watcher_fn => {| __name__ := "job_watcher"; call := job_watcher fuel |}
  | initializer_fn => {| __name__ := "initializer"; call := initializer fuel |}
  | stopper_fn => {| __name__ := "stopper"; call := stopper fuel |}
  | undeployer_fn => {| __name__ := "undeployer"; call := undeployer fuel |}
  end.

(** the [except Exception:] block of [walking_dead] *)
Definition walking_dead_handler (func : Func) : M unit :=
  let delay := 5%Z in
  log EXCEPTION ("Unhandled exception in " ++ __name__ func
                 ++ ", restarting in " ++ pretty delay ++ " sec.") ;;
  await (asyncio_sleep delay).

(** one pass of the [while True] of [walking_dead] *)
Definition walking_dead_pass (func : Func) : M unit :=
  log INFO ("(Re)starting " ++ __name__ func) ;;
  try_except (call func) (fun _ => walking_dead_handler func).

Definition walking_dead (fuel : nat) (func : Func) : M unit :=
  while_true fuel (walking_dead_pass func).

(** [asyncio.create_task(walking_dead(f))]: a new entry in the task table
    of the event loop; its position is the handle *)
Definition create_task (func : LoopFn) : M nat := fun w =>
  (Done (length (loop_tasks w)),
   set_loop_tasks
     (loop_tasks w ++ [{| task_coro := func; task_cancel_requested := false |}]) w).

Definition tasks_append (h : nat) (c : Controller) : Controller :=
  {| db := db c; _tasks := _tasks c ++ [h]; _wakeup_event := _wakeup_event c;
     _task := _task c |}.

Definition set_task (v : list nat) (c : Controller) : Controller :=
  {| db := db c; _tasks := _tasks c; _wakeup_event := _wakeup_event c;
     _task := Some v |}.

Definition start : M unit :=
  log INFO "Starting controller tasks." ;;
  for_each
    [deployment_watcher_fn; job_watcher_fn; initializer_fn; stopper_fn;
     undeployer_fn]
    (fun f => let* h := create_task f in modify_controller (tasks_append h)).

Definition cancel_requested (t : Task) : Task :=
  {| task_coro := task_coro t; task_cancel_requested := true |}.

(** [task.cancel()] *)
Definition task_cancel (h : nat) : M unit := fun w =>
  (Done tt, set_loop_tasks (alter cancel_requested h (loop_tasks w)) w).

(** the task table after [task.cancel()] on each handle of [hs] *)
Definition cancel_all (hs : list nat) (ts : list Task) : list Task :=
  fold_left (fun ts h => alter cancel_requested h ts) hs ts.

Definition stop : M unit :=
  log INFO "Stopping controller tasks." ;;
  (let* w := get_world in for_each (_tasks (controller w)) task_cancel) ;;
  (let* w := get_world in await (asyncio_gather (_tasks (controller w)))) ;;
  modify_controller (set_task []).

(** ** Mutations of the index, and sample data *)

(** The ways the controller changes [self.db]: [db.add], [db.remove], and
    [reset]. *)
Inductive Mutation :=
| db_add (b : Build)
| db_remove (n : string)
| db_reset.

Definition mutate_db (m : Mutation) (d : BuildsDb.t) : BuildsDb.t :=
  match m with
  | db_add b => BuildsDb.add d b
  | db_remove n => BuildsDb.remove d n
  | db_reset => BuildsDb.empty
  end.

Definition mutate (w : World) (m : Mutation) : World :=
  set_controller (set_db (mutate_db m (db (controller w))) (controller w)) w.

Definition mutate_all (ms : list Mutation) (w : World) : World :=
  fold_left mutate ms w.

#[global] Instance BuildStatus_eq_dec : EqDecision BuildStatus.t.
Proof. solve_decision. Defined.

#[global] Instance BuildInitStatus_eq_dec : EqDecision BuildInitStatus.t.
Proof. solve_decision. Defined.

Module Sample.

Definition build (n : string) (s : BuildStatus.t) (i : BuildInitStatus.t)
    (t : Z) : Build :=
  {| name := n; repo := "oca/web"; target_branch := "16.0"; pr := None;
     git_commit := n; status := s; init_status := i;
     last_transition_time := t |}.

Definition limits : Settings :=
  {| max_started := 3; max_initializing := 2; max_deployed := 10 |}.

(** every awaited call returns; the streams are exhausted; [from_name]
    finds nothing *)
Definition quiet : Env :=
  {| settings := limits;
     resolve := fun _ _ => Done tt;
     from_name := fun _ _ => None;
     next_deployment := fun _ => None;
     next_job := fun _ => None |}.

(** the first read of the deployment stream fails, as the first call of
    a run; every other call returns *)
Definition flaky : Env :=
  {| settings := limits;
     resolve := fun tr c =>
       match c with
       | watch_deployments_next =>
           if (length tr <=? 1)%nat then Raised (Error "connection reset")
           else Done tt
       | _ => Done tt
       end;
     from_name := fun _ _ => None;
     next_deployment := fun _ => None;
     next_job := fun _ => None |}.

Definition world (e : Env) (d : BuildsDb.t) : World :=
  {| env := e; controller := set_db d Controller_init; loop_tasks := [];
     trace := [] |}.

Definition a := build "a" BuildStatus.started BuildInitStatus.succeeded 5.
Definition b := build "b" BuildStatus.started BuildInitStatus.succeeded 2.
Definition c := build "c" BuildStatus.started BuildInitStatus.succeeded 9.
Definition d := build "d" BuildStatus.started BuildInitStatus.succeeded 1.
Definition e := build "e" BuildStatus.started BuildInitStatus.succeeded 7.
Definition f := build "f" BuildStatus.stopped BuildInitStatus.todo 7.

(** five started builds and a stopped one, against [max_started = 3] *)
Definition crowded : World := world quiet [a; b; c; d; e; f].

(** exactly three started builds, and stopped ones *)
Definition full : World :=
  world quiet [a; b; c; f; build "g" BuildStatus.stopped BuildInitStatus.succeeded 0].

Definition labelled (n : string) (kind : option string) : gmap string string :=
  match kind with
  | Some k => <["runboat/job-kind" := k]> (<["runboat/build" := n]> ∅)
  | None => <["runboat/build" := n]> ∅
  end.

Definition deployment (bd : Build) : Deployment :=
  {| deployment_kind := "Deployment";
     deployment_labels := labelled (name bd) None;
     from_deployment := bd |}.

Definition job (n kind : string) (ok ko : option Z) : Job :=
  {| job_resource_kind := "Job";
     job_labels := labelled n (Some kind);
     job_status := {| succeeded := ok; failed := ko |} |}.

End Sample.

(** ** The specification's words, for comparison with the code *)

(** The hook the job watcher is to call: by job kind, and by status with
    succeeded read before failed. *)
Definition hook_for (job_kind : string) (st : JobStatus) : Method.t :=
  if String.eqb job_kind "initialize" then
    if truthy_int (succeeded st) then Method.on_initialize_succeeded
    else if truthy_int (failed st) then Method.on_initialize_failed
    else Method.on_initialize_started
  else
    if truthy_int (succeeded st) then Method.on_cleanup_succeeded
    else if truthy_int (failed st) then Method.on_cleanup_failed
    else Method.on_cleanup_started.

(** The capacity of the stopper as the specification words it: the limit
    minus the current count. *)
Definition limit_minus_count_started (w : World) : Z :=
  max_started (settings (env w)) - started w.

(** The Build actions and hooks awaited in a stretch of trace. *)
Definition build_calls (tr : list Effect) : list (Method.t * Build) :=
  flat_map
    (fun e => match e with
              | Await (Build_call m b) => [(m, b)]
              | _ => []
              end) tr.

(** ** The common shape of the three schedulers *)

(** One pass of a scheduler after [_sleep]: [initializer_wake],
    [stopper_wake] and [undeployer_wake] are this pass for their own
    capacity, query, message and action (see [scheduler_shapes]). *)
Definition bounded_pass (capacity : World -> Z)
    (candidates : BuildsDb.t -> Z -> list Build)
    (message : World -> list Build -> string) (action : Method.t) : M unit :=
  let* w := get_world in
  if (capacity w <=? 0)%Z then ret tt
  else
    let selected := candidates (db (controller w)) (capacity w) in
    if is_empty selected then ret tt
    else
      log INFO (message w selected) ;;
      for_each selected (fun build => await (Build_call action build)).

(** What a pass does with positive capacity [cap] and the candidates
    [selected] the query returned for it: they are at most [cap]; the pass
    awaits [action] on them one after the other, in the order of the
    query, up to and including the first call that does not return (all
    of them when the pass returns, and the pass returns when every call
    does); it awaits no other Build action and leaves the controller as it
    was. *)
Definition acts_on_candidates (cap : Z) (selected : list Build)
    (action : Method.t) (pass : M unit) (w : World) : Prop :=
  (0 < cap)%Z ->
  (Z.of_nat (length selected) <= cap)%Z
  /\ controller (snd (pass w)) = controller w
  /\ exists k : nat,
       (k <= length selected)%nat
       /\ (selected <> [] -> 1 <= k)%nat
       /\ build_calls (trace (snd (pass w)))
          = (build_calls (trace w) ++ map (pair action) (take k selected))%list
       /\ (fst (pass w) = Done tt -> k = length selected)
       /\ ((forall tr c, resolve (env w) tr c = Done tt) ->
           fst (pass w) = Done tt).

(** What a pass does without capacity ([cap] not positive) or without
    candidates: nothing at all, the world is as it was, and the loop is
    back at its [_sleep]. *)
Definition goes_back_to_sleep (cap : Z) (selected : list Build)
    (pass : M unit) (loop : nat -> M unit) (w : World) : Prop :=
  (cap <= 0)%Z \/ selected = [] ->
  pass w = (Done tt, w)
  /\ forall (fuel : nat) (w0 : World),
       _sleep w0 = (Done tt, w) -> loop (S fuel) w0 = loop fuel w.

(** The number of Build actions a pass awaits. *)
Definition actions_of (pass : M unit) (w : World) : Z :=
  Z.of_nat (length (build_calls (trace (snd (pass w)))))
  - Z.of_nat (length (build_calls (trace w))).

(** ** Frames: what a coroutine leaves alone *)

#[global] Instance Method_eq_dec : EqDecision Method.t.
Proof. solve_decision. Defined.

(** the transition hooks, as opposed to the actions *)
Definition is_hook (m : Method.t) : bool :=
  match m with
  | Method.start | Method.stop | Method.undeploy | Method.initialize => false
  | _ => true
  end.

(** what the deployment watcher may do: log, signal the wake-up event,
    read its stream *)
Definition deployment_watcher_effect (e : Effect) : bool :=
  match e with
  | Log _ _ | EventSet | EventClear | Await watch_deployments_next => true
  | _ => false
  end.

(** what the job watcher may do: log, read its stream, look a build up,
    call a transition hook *)
Definition job_watcher_effect (e : Effect) : bool :=
  match e with
  | Log _ _ | Await watch_jobs_next | Await (Build_from_name _) => true
  | Await (Build_call m _) => is_hook m
  | _ => false
  end.

(** what a scheduler may do: log at info level, wait for the wake-up
    event, call its own action *)
Definition scheduler_effect (action : Method.t) (e : Effect) : bool :=
  match e with
  | Log INFO _ | Await (wakeup_event_wait _) => true
  | Await (Build_call m _) => bool_decide (m = action)
  | _ => false
  end.

(** what the supervisor adds to the effects [P] of the function it runs *)
Definition supervised_effect (P : Effect -> bool) (e : Effect) : bool :=
  match e with
  | Log INFO _ | Log EXCEPTION _ | Await (asyncio_sleep _) => true
  | _ => P e
  end.

(** [w'] comes after [w]: same environment and task table, controllers
    related by [K], and a trace longer by effects that all pass [P] *)
Definition frame (K : Controller -> Controller -> Prop) (P : Effect -> bool)
    (w w' : World) : Prop :=
  env w' = env w /\ loop_tasks w' = loop_tasks w
  /\ K (controller w) (controller w')
  /\ exists delta : list Effect,
       trace w' = (trace w ++ delta)%list /\ forallb P delta = true.

Definition stays {A} (K : Controller -> Controller -> Prop) (P : Effect -> bool)
    (m : M A) : Prop :=
  forall w, frame K P w (snd (m w)).

(** the index may change; the task handles do not, and a wake-up event
    that was down is down *)
Definition keeps_tasks (c c' : Controller) : Prop :=
  _tasks c' = _tasks c /\ _task c' = _task c
  /\ (_wakeup_event c = false -> _wakeup_event c' = false).

(** every handle of [_tasks] is a position of the task table *)
Definition handles_valid (w : World) : Prop :=
  Forall (fun h => (h < length (loop_tasks w))%nat) (_tasks (controller w)).

(** the tasks [start] creates, in its order *)
Definition started_tasks : list Task :=
  map (fun f => {| task_coro := f; task_cancel_requested := false |})
    [deployment_watcher_fn; job_watcher_fn; initializer_fn; stopper_fn;
     undeployer_fn].

(** What a pass does when its action fails on the first candidate, every
    time it is called: the pass ends with that exception, and that call is
    the only Build action it awaited; the other candidates are left. *)
Definition aborts_at_first_failure (cap : Z) (selected : list Build)
    (action : Method.t) (pass : M unit) (w : World) : Prop :=
  forall (b : Build) (rest : list Build) (e : exn),
    (0 < cap)%Z -> selected = b :: rest ->
    (forall tr, resolve (env w) tr (Build_call action b) = Raised e) ->
    fst (pass w) = Raised e
    /\ build_calls (trace (snd (pass w)))
       = (build_calls (trace w) ++ [(action, b)])%list.

Module Scenario.

(** [Build.stop] always fails; every other call returns *)
Definition stop_fails : Env :=
  {| settings := Sample.limits;
     resolve := fun _ c =>
       match c with
       | Build_call Method.stop _ => Raised (Error "scale down failed")
       | _ => Done tt
       end;
     from_name := fun _ _ => None;
     next_deployment := fun _ => None;
     next_job := fun _ => None |}.

(** the wait for the wake-up event times out; every other call returns *)
Definition timing_out : Env :=
  {| settings := Sample.limits;
     resolve := fun _ c =>
       match c with
       | wakeup_event_wait _ => Raised TimeoutError
       | _ => Done tt
       end;
     from_name := fun _ _ => None;
     next_deployment := fun _ => None;
     next_job := fun _ => None |}.

(** every read of a stream and every gather is cancelled *)
Definition cancelling : Env :=
  {| settings := Sample.limits;
     resolve := fun _ c =>
       match c with
       | watch_deployments_next | watch_jobs_next | asyncio_gather _ => Cancelled
       | _ => Done tt
       end;
     from_name := fun _ _ => None;
     next_deployment := fun _ => None;
     next_job := fun _ => None |}.

(** one job event is delivered, over and over; hooks and [from_name]
    fail *)
Definition job_events (event_type : string) (job : Job) : Env :=
  {| settings := Sample.limits;
     resolve := fun _ c =>
       match c with
       | Build_call _ _ => Raised (Error "patch failed")
       | Build_from_name _ => Raised (Error "api unreachable")
       | _ => Done tt
       end;
     from_name := fun _ _ => None;
     next_deployment := fun _ => None;
     next_job := fun _ => Some (event_type, job) |}.

(** reads of the streams and the backoff sleep both fail *)
Definition sleep_fails : Env :=
  {| settings := Sample.limits;
     resolve := fun _ c =>
       match c with
       | watch_deployments_next | watch_jobs_next => Raised (Error "connection reset")
       | asyncio_sleep _ => Raised (Error "loop closed")
       | _ => Done tt
       end;
     from_name := fun _ _ => None;
     next_deployment := fun _ => None;
     next_job := fun _ => None |}.

End Scenario.

(** ** The monad: basic facts *)

Lemma filter_bool_prop {A} (P : A -> Prop) `{forall x, Decision (P x)}
    (p : A -> bool) (l : list A) :
  (forall x, p x = true <-> P x) ->
  List.filter p l = filter P l.
Proof.
  intros Hp. induction l as [|x l IH]; [reflexivity|].
  simpl. rewrite filter_cons. destruct (p x) eqn:E.
  - rewrite decide_True by now apply Hp. now rewrite IH.
  - rewrite decide_False; [exact IH|]. intros HP. apply Hp in HP. congruence.
Qed.

Lemma BuildStatus_eqb_eq a b : BuildStatus.eqb a b = true <-> a = b.
Proof. destruct a, b; simpl; split; congruence. Qed.

Lemma BuildInitStatus_eqb_eq a b : BuildInitStatus.eqb a b = true <-> a = b.
Proof. destruct a, b; simpl; split; congruence. Qed.

(** ** The aggregate properties *)

(** C8: [started], [initializing] and [deployed] are computed from the
    current contents of the index at every access: after any sequence of
    [add], [remove] and [reset] on the index, each equals the number of
    builds of the index that pass the corresponding filter (status
    started, init-status started, all), and two controllers holding the
    same index report the same three numbers whatever else they hold. *)
Theorem aggregates_are_live (w : World) (ms : list Mutation) :
  let w' := mutate_all ms w in
  let rows := db (controller w') in
  started w' = Z.of_nat (length (filter (fun b => status b = BuildStatus.started) rows))
  /\ initializing w'
     = Z.of_nat (length (filter (fun b => init_status b = BuildInitStatus.started) rows))
  /\ deployed w' = Z.of_nat (length rows)
  /\ rows = fold_left (fun d m => mutate_db m d) ms (db (controller w))
  /\ forall c : Controller,
       let w2 := set_controller (set_db rows c) w' in
       started w2 = started w' /\ initializing w2 = initializing w'
       /\ deployed w2 = deployed w'.
Proof.
  intros w' rows. repeat split.
  - unfold started, BuildsDb.count_by_status. fold rows.
    now rewrite (filter_bool_prop (fun b => status b = BuildStatus.started))
      by (intros x; apply BuildStatus_eqb_eq).
  - unfold initializing, BuildsDb.count_by_init_status. fold rows.
    now rewrite (filter_bool_prop (fun b => init_status b = BuildInitStatus.started))
      by (intros x; apply BuildInitStatus_eqb_eq).
  - subst rows w'. unfold mutate_all. revert w.
    induction ms as [|m ms IH]; intros w; [reflexivity|]. simpl. now rewrite IH.
Qed.

(** ** Awaited calls *)

Lemma await_value_world {A} (c : Call) (v : Env -> list Effect -> A) w :
  snd (await_value c v w) = record_effect (Await c) w.
Proof. unfold await_value. now destruct (resolve (env w) (trace w) c). Qed.

Lemma await_world (c : Call) w : snd (await c w) = record_effect (Await c) w.
Proof. apply await_value_world. Qed.

Lemma await_outcome (c : Call) w : fst (await c w) = resolve (env w) (trace w) c.
Proof.
  unfold await, await_value.
  destruct (resolve (env w) (trace w) c) as [[]| | |]; reflexivity.
Qed.

(** ** deploy_or_delay_start *)

Lemma get_for_commit_add r tb p c (d : BuildsDb.t) (b : Build) :
  BuildsDb.get_for_commit d r tb p c = None ->
  BuildsDb.same_commit r tb p c b = true ->
  BuildsDb.get_for_commit (BuildsDb.add d b) r tb p c = Some b.
Proof.
  unfold BuildsDb.get_for_commit. intros Hnone Hb.
  induction d as [|x d IH]; simpl in *.
  - now rewrite Hb.
  - destruct (BuildsDb.same_commit r tb p c x) eqn:Ex; [discriminate|].
    destruct (String.eqb (name x) (name b)); simpl.
    + now rewrite Hb.
    + rewrite Ex. now apply IH.
Qed.

Lemma get_for_commit_same r tb p c (d : BuildsDb.t) (b : Build) :
  BuildsDb.get_for_commit d r tb p c = Some b ->
  repo b = r /\ target_branch b = tb /\ pr b = p /\ git_commit b = c.
Proof.
  unfold BuildsDb.get_for_commit. intros H. apply find_some in H as [_ H].
  unfold BuildsDb.same_commit in H.
  repeat (apply andb_prop in H as [H ?]).
  repeat split; try now apply String.eqb_eq.
  now apply bool_decide_eq_true in H1.
Qed.

(** C3: a call of [deploy_or_delay_start] looks the commit up in the index;
    when a build of exactly that repo, target branch, pull request and
    commit is there, the call awaits [start()] on it and nothing else,
    otherwise it awaits [Build.deploy] with the same four arguments and
    nothing else.  So when the index holds no such build, a first call,
    then the deployment watcher indexing the build from its ADDED or
    MODIFIED event, then a second call with the same arguments, deploy
    once, and the second call is the [start()] of the indexed build. *)
Theorem deploy_or_delay_start_idempotent
    (r tb : string) (p : option Z) (c : string) (w : World) :
  match BuildsDb.get_for_commit (db (controller w)) r tb p c with
  | Some b =>
      deploy_or_delay_start r tb p c w = await (Build_call Method.start b) w
      /\ (repo b = r /\ target_branch b = tb /\ pr b = p /\ git_commit b = c)
      /\ trace (snd (deploy_or_delay_start r tb p c w))
         = (trace w ++ [Await (Build_call Method.start b)])%list
  | None =>
      deploy_or_delay_start r tb p c w = await (Build_deploy r tb p c) w
      /\ trace (snd (deploy_or_delay_start r tb p c w))
         = (trace w ++ [Await (Build_deploy r tb p c)])%list
  end
  /\ forall (event_type n : string) (d : Deployment),
       BuildsDb.get_for_commit (db (controller w)) r tb p c = None ->
       is_added_or_modified event_type = true ->
       deployment_labels d !! "runboat/build" = Some n -> n <> "" ->
       BuildsDb.same_commit r tb p c (from_deployment d) = true ->
       let w1 := snd (deploy_or_delay_start r tb p c w) in
       let w2 := snd (deployment_watcher_step event_type d w1) in
       let w3 := snd (deploy_or_delay_start r tb p c w2) in
       trace w3
       = (trace w
          ++ [Await (Build_deploy r tb p c);
              Log DEBUG ("k8s " ++ event_type ++ " " ++ deployment_kind d ++ " " ++ n);
              EventSet; EventClear;
              Await (Build_call Method.start (from_deployment d))])%list.
Proof.
  split.
  - assert (Hcall : deploy_or_delay_start r tb p c w
                     = match BuildsDb.get_for_commit (db (controller w)) r tb p c with
                       | Some b => await (Build_call Method.start b) w
                       | None => await (Build_deploy r tb p c) w
                       end).
    { unfold deploy_or_delay_start, bind, get_world.
      now destruct (BuildsDb.get_for_commit (db (controller w)) r tb p c). }
    rewrite Hcall.
    destruct (BuildsDb.get_for_commit (db (controller w)) r tb p c) as [b|] eqn:E.
    + split; [reflexivity|]. split; [now apply (get_for_commit_same _ _ _ _ _ _ E)|].
      now rewrite await_world.
    + split; [reflexivity|]. now rewrite await_world.
  - intros et n d Hnone Het Hlab Hn Hsame w1 w2 w3.
    assert (E1 : w1 = record_effect (Await (Build_deploy r tb p c)) w).
    { subst w1. unfold deploy_or_delay_start, bind, get_world. rewrite Hnone.
      apply await_world. }
    assert (E2 : trace w2 = (trace w1 ++
                 [Log DEBUG ("k8s " ++ et ++ " " ++ deployment_kind d ++ " " ++ n);
                  EventSet; EventClear])%list
                 /\ db (controller w2) = BuildsDb.add (db (controller w1)) (from_deployment d)).
    { subst w2. unfold deployment_watcher_step. rewrite Hlab. simpl.
      destruct (String.eqb n "") eqn:En; [apply String.eqb_eq in En; contradiction|].
      simpl. rewrite Het. simpl. rewrite <- !app_assoc. now split. }
    destruct E2 as [Htr Hdb].
    subst w3. unfold deploy_or_delay_start, bind, get_world.
    rewrite Hdb, E1.
    change (db (controller (record_effect (Await (Build_deploy r tb p c)) w)))
      with (db (controller w)).
    rewrite (get_for_commit_add _ _ _ _ _ _ Hnone Hsame).
    rewrite await_world. simpl. rewrite Htr, E1. simpl.
    now rewrite <- !app_assoc.
Qed.

Lemma deploy_or_delay_start_idempotent_witness :
  let w := Sample.world Sample.quiet [] in
  let w1 := snd (deploy_or_delay_start "oca/web" "16.0" None "a" w) in
  let w2 := snd (deployment_watcher_step "ADDED" (Sample.deployment Sample.a) w1) in
  let w3 := snd (deploy_or_delay_start "oca/web" "16.0" None "a" w2) in
  trace w3
  = [Await (Build_deploy "oca/web" "16.0" None "a");
     Log DEBUG "k8s ADDED Deployment a"; EventSet; EventClear;
     Await (Build_call Method.start Sample.a)].
Proof.
  exact (proj2 (deploy_or_delay_start_idempotent "oca/web" "16.0" None "a"
                  (Sample.world Sample.quiet []))
           "ADDED" "a" (Sample.deployment Sample.a)
           eq_refl eq_refl eq_refl ltac:(discriminate) eq_refl).
Defined.

(** ** deployment_watcher *)

(** C4: for a deployment event whose resource carries a build name under
    the label runboat/build, the body of the deployment watcher replaces
    the index by the index with the build of the resource added when the
    event type is ADDED or MODIFIED, or with the build of that name
    removed when it is DELETED, logs an error and leaves the index alone
    for any other event type, and in all three cases then sets and clears
    the wake-up event (leaving its flag down) and returns; nothing else of
    the controller changes.  For a resource without the label (or with an
    empty one, which the test [not build_name] does not tell apart) the
    body returns at once: the world, index and trace included, is
    unchanged, so no wake-up is signalled. *)
Theorem deployment_watcher_step_spec
    (event_type : string) (d : Deployment) (w : World) :
  (forall n : string,
     deployment_labels d !! "runboat/build" = Some n -> n <> "" ->
     let w' := snd (deployment_watcher_step event_type d w) in
     let seen :=
       Log DEBUG ("k8s " ++ event_type ++ " " ++ deployment_kind d ++ " " ++ n) in
     fst (deployment_watcher_step event_type d w) = Done tt
     /\ (event_type = "ADDED" \/ event_type = "MODIFIED" ->
         controller w'
         = set_wakeup_event false
             (set_db (BuildsDb.add (db (controller w)) (from_deployment d))
                (controller w))
         /\ trace w' = (trace w ++ [seen; EventSet; EventClear])%list)
     /\ (event_type = "DELETED" ->
         controller w'
         = set_wakeup_event false
             (set_db (BuildsDb.remove (db (controller w)) n) (controller w))
         /\ trace w' = (trace w ++ [seen; EventSet; EventClear])%list)
     /\ (event_type <> "ADDED" -> event_type <> "MODIFIED" ->
         event_type <> "DELETED" ->
         controller w' = set_wakeup_event false (controller w)
         /\ trace w'
            = (trace w
               ++ [seen;
                   Log ERROR ("Unexpected k8s event type " ++ event_type ++ ".");
                   EventSet; EventClear])%list))
  /\ (deployment_labels d !! "runboat/build" = None
      \/ deployment_labels d !! "runboat/build" = Some "" ->
      deployment_watcher_step event_type d w = (Done tt, w)).
Proof.
  split.
  - intros n Hlab Hn w' seen. subst w' seen. unfold deployment_watcher_step.
    rewrite Hlab.
    assert (Ht : truthy_str (Some n) = true).
    { simpl. destruct (String.eqb n "") eqn:En; [|reflexivity].
      apply String.eqb_eq in En. contradiction. }
    rewrite Ht. simpl.
    split; [|split; [|split]].
    + destruct (is_added_or_modified event_type); [reflexivity|].
      destruct (String.eqb event_type "DELETED"); reflexivity.
    + intros [-> | ->]; simpl; rewrite <- !app_assoc; now split.
    + intros ->. simpl. rewrite <- !app_assoc. now split.
    + intros Ha Hm Hd. unfold is_added_or_modified.
      rewrite (proj2 (String.eqb_neq _ _) Ha), (proj2 (String.eqb_neq _ _) Hm),
        (proj2 (String.eqb_neq _ _) Hd).
      simpl. rewrite <- !app_assoc. now split.
  - intros [Hlab | Hlab]; unfold deployment_watcher_step; now rewrite Hlab.
Qed.

Lemma deployment_watcher_step_spec_witness :
  let w := Sample.world Sample.quiet [Sample.a] in
  let unlabelled :=
    {| deployment_kind := "Deployment"; deployment_labels := ∅;
       from_deployment := Sample.b |} in
  (let w' := snd (deployment_watcher_step "ADDED" (Sample.deployment Sample.b) w) in
   controller w' = set_wakeup_event false (set_db [Sample.a; Sample.b] (controller w))
   /\ trace w' = [Log DEBUG "k8s ADDED Deployment b"; EventSet; EventClear])
  /\ (let w' := snd (deployment_watcher_step "MODIFIED" (Sample.deployment Sample.b) w) in
      controller w' = set_wakeup_event false (set_db [Sample.a; Sample.b] (controller w))
      /\ trace w' = [Log DEBUG "k8s MODIFIED Deployment b"; EventSet; EventClear])
  /\ (let w' := snd (deployment_watcher_step "DELETED" (Sample.deployment Sample.a) w) in
      controller w' = set_wakeup_event false (set_db [] (controller w))
      /\ trace w' = [Log DEBUG "k8s DELETED Deployment a"; EventSet; EventClear])
  /\ (let w' := snd (deployment_watcher_step "BOOKMARK" (Sample.deployment Sample.a) w) in
      controller w' = set_wakeup_event false (controller w)
      /\ trace w'
         = [Log DEBUG "k8s BOOKMARK Deployment a";
            Log ERROR "Unexpected k8s event type BOOKMARK."; EventSet; EventClear])
  /\ deployment_watcher_step "ADDED" unlabelled w = (Done tt, w).
Proof.
  intros w unlabelled. split; [|split; [|split; [|split]]].
  - exact (proj1 (proj2 (proj1
             (deployment_watcher_step_spec "ADDED" (Sample.deployment Sample.b) w)
             "b" eq_refl ltac:(discriminate)))
             (or_introl eq_refl)).
  - exact (proj1 (proj2 (proj1
             (deployment_watcher_step_spec "MODIFIED" (Sample.deployment Sample.b) w)
             "b" eq_refl ltac:(discriminate)))
             (or_intror eq_refl)).
  - exact (proj1 (proj2 (proj2 (proj1
             (deployment_watcher_step_spec "DELETED" (Sample.deployment Sample.a) w)
             "a" eq_refl ltac:(discriminate))))
             eq_refl).
  - exact (proj2 (proj2 (proj2 (proj1
             (deployment_watcher_step_spec "BOOKMARK" (Sample.deployment Sample.a) w)
             "a" eq_refl ltac:(discriminate))))
             ltac:(discriminate) ltac:(discriminate) ltac:(discriminate)).
  - exact (proj2 (deployment_watcher_step_spec "ADDED" unlabelled w)
             (or_introl eq_refl)).
Defined.

(** ** job_watcher *)

Lemma bind_ret_tt (m : M unit) w : bind m (fun _ => ret tt) w = m w.
Proof. unfold bind, ret. now destruct (m w) as [[[]| | |] w']. Qed.

Lemma is_job_kind_cases (k : string) :
  is_job_kind (Some k) = true <-> k = "initialize" \/ k = "cleanup".
Proof.
  simpl. rewrite orb_true_iff. now rewrite !String.eqb_eq.
Qed.

(** Once the build is known, the two [if job_kind == ...] blocks await the
    one hook [hook_for] names. *)
Lemma job_watcher_dispatch_hook (kind : string) (job : Job) (b : Build) w :
  kind = "initialize" \/ kind = "cleanup" ->
  job_watcher_dispatch (Some kind) job b w
  = await (Build_call (hook_for kind (job_status job)) b) w.
Proof.
  intros [-> | ->]; unfold job_watcher_dispatch, hook_for; simpl.
  - rewrite bind_ret_tt.
    now destruct (truthy_int (succeeded (job_status job))),
                 (truthy_int (failed (job_status job))).
  - unfold bind at 1. unfold ret at 1.
    now destruct (truthy_int (succeeded (job_status job))),
                 (truthy_int (failed (job_status job))).
Qed.

(** The lookup: the index first, [Build.from_name] only on a miss. *)
Lemma job_watcher_resolve_build_spec (n : string) w :
  match BuildsDb.get (db (controller w)) n with
  | Some b => job_watcher_resolve_build n w = (Done (Some b), w)
  | None =>
      job_watcher_resolve_build n w
      = await_value (Build_from_name n) (fun e tr => from_name e tr n) w
  end.
Proof.
  unfold job_watcher_resolve_build, bind, get_world.
  now destruct (BuildsDb.get (db (controller w)) n).
Qed.

(** An ADDED or MODIFIED event with both labels: log, look the build up,
    dispatch. *)
Lemma job_watcher_step_added (event_type : string) (job : Job) (n kind : string) w :
  is_added_or_modified event_type = true ->
  job_labels job !! "runboat/build" = Some n -> n <> "" ->
  job_labels job !! "runboat/job-kind" = Some kind ->
  kind = "initialize" \/ kind = "cleanup" ->
  job_watcher_step event_type job w
  = (let* build := job_watcher_resolve_build n in
     match build with
     | None => ret tt
     | Some build => await (Build_call (hook_for kind (job_status job)) build)
     end)
      (record_effect (Log DEBUG (job_event_message event_type job)) w).
Proof.
  intros Het Hn Hne Hk Hkind. unfold job_watcher_step.
  rewrite Hn, Hk.
  assert (Ht : truthy_str (Some n) = true).
  { simpl. destruct (String.eqb n "") eqn:En; [|reflexivity].
    apply String.eqb_eq in En. contradiction. }
  rewrite Ht, (proj2 (is_job_kind_cases kind) Hkind), Het. simpl.
  unfold bind, log, emit.
  destruct (job_watcher_resolve_build n _) as [[[b|]| | |] w1]; try reflexivity.
  now apply job_watcher_dispatch_hook.
Qed.

Lemma build_calls_app (l1 l2 : list Effect) :
  build_calls (l1 ++ l2) = (build_calls l1 ++ build_calls l2)%list.
Proof. unfold build_calls. apply flat_map_app. Qed.

(** C7: for an ADDED or MODIFIED job event labelled with a build name and
    with job kind initialize or cleanup, the job watcher logs the event,
    takes the build from the index or, when the index has none of that
    name, from [Build.from_name], and then awaits one hook on that build
    and nothing more: [on_<kind>_succeeded] when [status.succeeded] is
    true, else [on_<kind>_failed] when [status.failed] is true, else
    [on_<kind>_started].  The event ends as that hook ends. *)
Theorem job_watcher_dispatches_one_hook
    (event_type : string) (job : Job) (n kind : string) (build : Build)
    (w : World) :
  is_added_or_modified event_type = true ->
  job_labels job !! "runboat/build" = Some n -> n <> "" ->
  job_labels job !! "runboat/job-kind" = Some kind ->
  kind = "initialize" \/ kind = "cleanup" ->
  let hook := Build_call (hook_for kind (job_status job)) build in
  let w0 := record_effect (Log DEBUG (job_event_message event_type job)) w in
  let w1 := record_effect (Await (Build_from_name n)) w0 in
  (BuildsDb.get (db (controller w)) n = Some build ->
   job_watcher_step event_type job w = await hook w0
   /\ build_calls (trace (snd (job_watcher_step event_type job w)))
      = (build_calls (trace w) ++ [(hook_for kind (job_status job), build)])%list)
  /\ (BuildsDb.get (db (controller w)) n = None ->
      resolve (env w) (trace w0) (Build_from_name n) = Done tt ->
      from_name (env w) (trace w0) n = Some build ->
      job_watcher_step event_type job w = await hook w1
      /\ build_calls (trace (snd (job_watcher_step event_type job w)))
         = (build_calls (trace w) ++ [(hook_for kind (job_status job), build)])%list).
Proof.
  intros Het Hn Hne Hk Hkind hook w0 w1.
  pose proof (job_watcher_step_added event_type job n kind w Het Hn Hne Hk Hkind)
    as Hstep.
  fold w0 in Hstep.
  pose proof (job_watcher_resolve_build_spec n w0) as Hlook.
  change (db (controller w0)) with (db (controller w)) in Hlook.
  split.
  - intros Hget. rewrite Hget in Hlook.
    assert (E : job_watcher_step event_type job w = await hook w0).
    { rewrite Hstep. unfold bind. now rewrite Hlook. }
    split; [exact E|]. rewrite E, await_world. simpl.
    rewrite !build_calls_app. simpl. now rewrite !app_nil_r.
  - intros Hget Hres Hval. rewrite Hget in Hlook.
    assert (E : job_watcher_step event_type job w = await hook w1).
    { rewrite Hstep. unfold bind. rewrite Hlook.
      unfold await_value. change (env w0) with (env w).
      rewrite Hres. now rewrite Hval. }
    split; [exact E|]. rewrite E, await_world. simpl.
    rewrite !build_calls_app. simpl. now rewrite !app_nil_r.
Qed.

Lemma job_watcher_dispatches_one_hook_witness :
  let job := Sample.job "f" "cleanup" None (Some 1) in
  let w := Sample.world Sample.quiet [Sample.f] in
  let w0 := record_effect (Log DEBUG "k8s MODIFIED Job cleanup f") w in
  job_watcher_step "MODIFIED" job w
  = await (Build_call Method.on_cleanup_failed Sample.f) w0
  /\ build_calls (trace (snd (job_watcher_step "MODIFIED" job w)))
     = [(Method.on_cleanup_failed, Sample.f)].
Proof.
  intros job w w0.
  exact (proj1 (job_watcher_dispatches_one_hook "MODIFIED" job "f" "cleanup"
                  Sample.f w eq_refl eq_refl ltac:(discriminate) eq_refl
                  (or_intror eq_refl))
           eq_refl).
Defined.

(** The lookup changes nothing of the controller and awaits no Build
    action or hook. *)
Lemma job_watcher_resolve_build_frame (n : string) w :
  let r := job_watcher_resolve_build n w in
  controller (snd r) = controller w /\ loop_tasks (snd r) = loop_tasks w
  /\ env (snd r) = env w
  /\ build_calls (trace (snd r)) = build_calls (trace w)
  /\ (trace (snd r) = trace w
      \/ trace (snd r) = (trace w ++ [Await (Build_from_name n)])%list).
Proof.
  intros r. subst r. pose proof (job_watcher_resolve_build_spec n w) as H.
  destruct (BuildsDb.get (db (controller w)) n); rewrite H.
  - simpl. repeat split. now left.
  - rewrite await_value_world. simpl. repeat split.
    + rewrite build_calls_app. simpl. now rewrite app_nil_r.
    + now right.
Qed.

(** C9: when the status of the job reports both succeeded and failed, the
    hook awaited is [on_initialize_succeeded] (for job kind cleanup:
    [on_cleanup_succeeded]) and no failed hook is awaited: succeeded is
    tested first.  [w1] is the world once the build is resolved, from the
    index or from [Build.from_name]. *)
Theorem succeeded_takes_precedence
    (event_type : string) (job : Job) (n kind : string) (build : Build)
    (w w1 : World) :
  is_added_or_modified event_type = true ->
  job_labels job !! "runboat/build" = Some n -> n <> "" ->
  job_labels job !! "runboat/job-kind" = Some kind ->
  kind = "initialize" \/ kind = "cleanup" ->
  job_watcher_resolve_build n
    (record_effect (Log DEBUG (job_event_message event_type job)) w)
  = (Done (Some build), w1) ->
  truthy_int (succeeded (job_status job)) = true ->
  truthy_int (failed (job_status job)) = true ->
  let hook :=
    if String.eqb kind "initialize" then Method.on_initialize_succeeded
    else Method.on_cleanup_succeeded in
  job_watcher_step event_type job w = await (Build_call hook build) w1
  /\ build_calls (trace (snd (job_watcher_step event_type job w)))
     = (build_calls (trace w) ++ [(hook, build)])%list
  /\ hook <> Method.on_initialize_failed /\ hook <> Method.on_cleanup_failed.
Proof.
  intros Het Hn Hne Hk Hkind Hlook Hs Hf hook.
  pose proof (job_watcher_step_added event_type job n kind w Het Hn Hne Hk Hkind)
    as Hstep.
  pose proof (job_watcher_resolve_build_frame n
                (record_effect (Log DEBUG (job_event_message event_type job)) w))
    as (_ & _ & _ & Hcalls & _).
  rewrite Hlook in Hcalls. simpl in Hcalls.
  rewrite build_calls_app in Hcalls. simpl in Hcalls. rewrite app_nil_r in Hcalls.
  assert (Hhook : hook_for kind (job_status job) = hook).
  { unfold hook_for, hook. now rewrite Hs. }
  assert (E : job_watcher_step event_type job w = await (Build_call hook build) w1).
  { rewrite Hstep. unfold bind. rewrite Hlook. now rewrite Hhook. }
  split; [exact E|]. split.
  - rewrite E, await_world. simpl.
    rewrite build_calls_app, Hcalls. reflexivity.
  - subst hook. now destruct (String.eqb kind "initialize").
Qed.

Lemma succeeded_takes_precedence_witness :
  let job := Sample.job "f" "initialize" (Some 1) (Some 1) in
  let w := Sample.world Sample.quiet [Sample.f] in
  job_watcher_step "ADDED" job w
  = await (Build_call Method.on_initialize_succeeded Sample.f)
      (record_effect (Log DEBUG "k8s ADDED Job initialize f") w)
  /\ build_calls (trace (snd (job_watcher_step "ADDED" job w)))
     = [(Method.on_initialize_succeeded, Sample.f)]
  /\ Method.on_initialize_succeeded <> Method.on_initialize_failed
  /\ Method.on_initialize_succeeded <> Method.on_cleanup_failed.
Proof.
  intros job w.
  exact (succeeded_takes_precedence "ADDED" job "f" "initialize" Sample.f w
           (record_effect (Log DEBUG "k8s ADDED Job initialize f") w)
           eq_refl eq_refl ltac:(discriminate) eq_refl (or_introl eq_refl)
           eq_refl eq_refl eq_refl).
Defined.

(** C6: the job watcher awaits no Build action or hook, raises nothing and
    changes nothing of the controller for: an event whose resource has no
    (or an empty) runboat/build label; an event whose runboat/job-kind
    label is neither initialize nor cleanup; a DELETED event; an ADDED or
    MODIFIED event whose build is not in the index and for which
    [Build.from_name] returns [None].  The body returns, having at most
    logged the event at debug level and, in the last case, looked the
    build up. *)
Theorem job_watcher_skips (event_type : string) (job : Job) (w : World) :
  let msg := Log DEBUG (job_event_message event_type job) in
  truthy_str (job_labels job !! "runboat/build") = false
  \/ is_job_kind (job_labels job !! "runboat/job-kind") = false
  \/ event_type = "DELETED"
  \/ (is_added_or_modified event_type = true
      /\ exists n : string,
           job_labels job !! "runboat/build" = Some n
           /\ BuildsDb.get (db (controller w)) n = None
           /\ resolve (env w) (trace w ++ [msg]) (Build_from_name n) = Done tt
           /\ from_name (env w) (trace w ++ [msg]) n = None) ->
  let r := job_watcher_step event_type job w in
  fst r = Done tt
  /\ controller (snd r) = controller w
  /\ loop_tasks (snd r) = loop_tasks w
  /\ build_calls (trace (snd r)) = build_calls (trace w)
  /\ exists delta : list Effect,
       trace (snd r) = (trace w ++ delta)%list
       /\ (delta = [] \/ delta = [msg]
           \/ exists n, delta = [msg; Await (Build_from_name n)]).
Proof.
  intros msg H r. subst r. unfold job_watcher_step.
  destruct (truthy_str (job_labels job !! "runboat/build")) eqn:Hlab; simpl;
    [|repeat split; exists []; split; [now rewrite app_nil_r | now left]].
  destruct (is_job_kind (job_labels job !! "runboat/job-kind")) eqn:Hkind; simpl;
    [|repeat split; exists []; split; [now rewrite app_nil_r | now left]].
  destruct H as [H | [H | [-> | (Het & n & Hn & Hget & Hres & Hval)]]];
    try discriminate.
  - simpl. repeat split.
    + rewrite build_calls_app. simpl. now rewrite app_nil_r.
    + exists [msg]. split; [reflexivity | right; now left].
  - rewrite Het. rewrite Hn. simpl fmt.
    unfold bind at 1. unfold log, emit.
    pose proof (job_watcher_resolve_build_spec n (record_effect msg w)) as Hlook.
    change (db (controller (record_effect msg w))) with (db (controller w)) in Hlook.
    rewrite Hget in Hlook. unfold bind. fold msg. rewrite Hlook.
    unfold await_value. change (env (record_effect msg w)) with (env w).
    change (trace (record_effect msg w)) with (trace w ++ [msg])%list.
    rewrite Hres, Hval. simpl. repeat split.
    + rewrite !build_calls_app. simpl. now rewrite !app_nil_r.
    + exists [msg; Await (Build_from_name n)]. split.
      * now rewrite <- app_assoc.
      * right; right. now exists n.
Qed.

Lemma job_watcher_skips_witness :
  let gone := Sample.job "zz" "initialize" None None in
  let w := Sample.world Sample.quiet [Sample.f] in
  fst (job_watcher_step "MODIFIED" gone w) = Done tt
  /\ controller (snd (job_watcher_step "MODIFIED" gone w)) = controller w
  /\ build_calls (trace (snd (job_watcher_step "MODIFIED" gone w))) = [].
Proof.
  intros gone w.
  pose proof (job_watcher_skips "MODIFIED" gone w
                (or_intror (or_intror (or_intror
                   (conj eq_refl
                      (ex_intro _ "zz"
                         (conj eq_refl (conj eq_refl (conj eq_refl eq_refl))))))))) as H.
  exact (conj (proj1 H) (conj (proj1 (proj2 H)) (proj1 (proj2 (proj2 (proj2 H)))))).
Defined.

(** ** initializer, stopper, undeployer *)

Lemma scheduler_shapes :
  initializer_wake
  = bounded_pass
      (fun w => max_initializing (settings (env w)) - initializing w)
      BuildsDb.to_initialize
      (fun w l => pretty (initializing w) ++ "/"
                  ++ pretty (max_initializing (settings (env w)))
                  ++ " builds are initializing. Initializing "
                  ++ pretty (length l) ++ " more.")
      Method.initialize
  /\ stopper_wake
     = bounded_pass
         (fun w => started w - max_started (settings (env w)))
         BuildsDb.oldest_started
         (fun w l => pretty (started w) ++ "/"
                     ++ pretty (max_started (settings (env w)))
                     ++ " builds started. Stopping " ++ pretty (length l) ++ ".")
         Method.stop
  /\ undeployer_wake
     = bounded_pass
         (fun w => deployed w - max_deployed (settings (env w)))
         BuildsDb.oldest_stopped
         (fun w l => pretty (deployed w) ++ "/"
                     ++ pretty (max_deployed (settings (env w)))
                     ++ " builds deployed. Undeploying " ++ pretty (length l) ++ ".")
         Method.undeploy.
Proof. repeat split. Qed.

Lemma for_each_await (action : Method.t) (l : list Build) (w : World) :
  let r := for_each l (fun b => await (Build_call action b)) w in
  controller (snd r) = controller w
  /\ env (snd r) = env w
  /\ exists k : nat,
       (k <= length l)%nat
       /\ (l <> [] -> 1 <= k)%nat
       /\ trace (snd r)
          = (trace w ++ map (fun b => Await (Build_call action b)) (take k l))%list
       /\ (fst r = Done tt -> k = length l)
       /\ ((forall tr c, resolve (env w) tr c = Done tt) -> fst r = Done tt).
Proof.
  revert w. induction l as [|x l IH]; intros w r; subst r.
  - simpl. repeat split. exists 0%nat. simpl. rewrite app_nil_r.
    repeat split; [lia | congruence].
  - simpl for_each. unfold bind.
    pose proof (await_world (Build_call action x) w) as Hw.
    pose proof (await_outcome (Build_call action x) w) as Ho.
    destruct (await (Build_call action x) w) as [o w1]. simpl in Hw, Ho. subst w1.
    destruct o as [[]| e | |].
    + destruct (IH (record_effect (Await (Build_call action x)) w))
        as (Hc & He & k & Hk & _ & Htr & Hdone & Hall).
      split; [exact Hc|]. split; [exact He|].
      exists (S k). simpl. repeat split.
      * lia.
      * lia.
      * rewrite Htr. simpl. now rewrite <- app_assoc.
      * intros Hd. f_equal. now apply Hdone.
      * intros Hres. apply Hall. exact Hres.
    + simpl. repeat split. exists 1%nat. simpl.
      repeat split; [lia | lia | discriminate |].
      intros Hres. rewrite Hres in Ho. discriminate.
    + simpl. repeat split. exists 1%nat. simpl.
      repeat split; [lia | lia | discriminate |].
      intros Hres. rewrite Hres in Ho. discriminate.
    + simpl. repeat split. exists 1%nat. simpl.
      repeat split; [lia | lia | discriminate |].
      intros Hres. rewrite Hres in Ho. discriminate.
Qed.

Lemma is_empty_nil {A} (l : list A) : is_empty l = true <-> l = [].
Proof. destruct l; simpl; split; congruence. Qed.

Lemma bounded_pass_idle capacity candidates message action (w : World) :
  (capacity w <= 0)%Z \/ candidates (db (controller w)) (capacity w) = [] ->
  bounded_pass capacity candidates message action w = (Done tt, w).
Proof.
  intros H. unfold bounded_pass, bind, get_world.
  destruct (Z.leb_spec (capacity w) 0) as [Hle|Hgt]; [reflexivity|].
  destruct H as [H|H]; [lia|]. now rewrite H.
Qed.

Lemma bounded_pass_acts capacity candidates message action (w : World) :
  (forall d c, (length (candidates d c) <= Z.to_nat c)%nat) ->
  acts_on_candidates (capacity w) (candidates (db (controller w)) (capacity w))
    action (bounded_pass capacity candidates message action) w.
Proof.
  intros Hlen Hcap. split; [specialize (Hlen (db (controller w)) (capacity w)); lia|].
  unfold bounded_pass, bind, get_world.
  destruct (Z.leb_spec (capacity w) 0) as [Hle|_]; [lia|].
  set (l := candidates (db (controller w)) (capacity w)).
  destruct l as [|x l'] eqn:El.
  - simpl. split; [reflexivity|]. exists 0%nat. simpl. rewrite app_nil_r.
    repeat split; [lia | congruence].
  - cbn [is_empty]. unfold log, emit.
    set (w0 := record_effect _ w).
    destruct (for_each_await action (x :: l') w0) as (Hc & _ & k & Hk & Hne & Htr & Hd & Hall).
    split; [exact Hc|]. exists k. repeat split; try assumption.
    rewrite Htr. subst w0. simpl trace.
    rewrite !build_calls_app. simpl. rewrite app_nil_r. f_equal.
    clear. generalize (take k (x :: l')). intros l.
    induction l as [|y l IH]; [reflexivity|]. simpl. now rewrite <- IH.
Qed.

Lemma while_true_step (fuel : nat) (sleep pass : M unit) (w0 w : World) :
  sleep w0 = (Done tt, w) -> pass w = (Done tt, w) ->
  while_true (S fuel) (sleep ;; pass) w0 = while_true fuel (sleep ;; pass) w.
Proof.
  intros Hs Hp. simpl. unfold bind at 1. unfold bind at 1.
  now rewrite Hs, Hp.
Qed.

Lemma oldest_first_length (l : list Build) :
  length (BuildsDb.oldest_first l) = length l.
Proof.
  induction l as [|x l IH]; [reflexivity|]. simpl. rewrite <- IH.
  generalize (BuildsDb.oldest_first l). clear. intros l.
  induction l as [|y l IH]; [reflexivity|]. simpl.
  destruct (BuildsDb.older x y); simpl; [reflexivity|]. now rewrite IH.
Qed.

Lemma query_lengths (d : BuildsDb.t) (c : Z) :
  (length (BuildsDb.to_initialize d c) <= Z.to_nat c)%nat
  /\ (length (BuildsDb.oldest_started d c) <= Z.to_nat c)%nat
  /\ (length (BuildsDb.oldest_stopped d c) <= Z.to_nat c)%nat.
Proof.
  unfold BuildsDb.to_initialize, BuildsDb.oldest_started, BuildsDb.oldest_stopped.
  repeat split; apply firstn_le_length.
Qed.

Lemma passes_act_on_candidates (w : World) :
  acts_on_candidates
    (max_initializing (settings (env w)) - initializing w)
    (BuildsDb.to_initialize (db (controller w))
       (max_initializing (settings (env w)) - initializing w))
    Method.initialize initializer_wake w
  /\ acts_on_candidates
       (started w - max_started (settings (env w)))
       (BuildsDb.oldest_started (db (controller w))
          (started w - max_started (settings (env w))))
       Method.stop stopper_wake w
  /\ acts_on_candidates
       (deployed w - max_deployed (settings (env w)))
       (BuildsDb.oldest_stopped (db (controller w))
          (deployed w - max_deployed (settings (env w))))
       Method.undeploy undeployer_wake w.
Proof.
  destruct scheduler_shapes as (-> & -> & ->).
  split; [|split].
  - exact (bounded_pass_acts
             (fun w => max_initializing (settings (env w)) - initializing w)
             BuildsDb.to_initialize _ Method.initialize w
             (fun d c => proj1 (query_lengths d c))).
  - exact (bounded_pass_acts
             (fun w => started w - max_started (settings (env w)))
             BuildsDb.oldest_started _ Method.stop w
             (fun d c => proj1 (proj2 (query_lengths d c)))).
  - exact (bounded_pass_acts
             (fun w => deployed w - max_deployed (settings (env w)))
             BuildsDb.oldest_stopped _ Method.undeploy w
             (fun d c => proj2 (proj2 (query_lengths d c)))).
Qed.

(** C1: at each wake the initializer computes [max_initializing] minus the
    number of builds whose init-status is started; the stopper computes
    the number of builds whose status is started minus [max_started]; the
    undeployer computes the number of builds minus [max_deployed].  When
    that number is positive the scheduler asks the index for that many
    candidates at most ([to_initialize], [oldest_started],
    [oldest_stopped]), gets no more than that, and awaits its action
    ([initialize], [stop], [undeploy]) on them, one after the other in
    the order of the query, within the same pass (see
    [acts_on_candidates]). *)
Theorem schedulers_act_within_capacity (w : World) :
  acts_on_candidates
    (max_initializing (settings (env w)) - initializing w)
    (BuildsDb.to_initialize (db (controller w))
       (max_initializing (settings (env w)) - initializing w))
    Method.initialize initializer_wake w
  /\ acts_on_candidates
       (started w - max_started (settings (env w)))
       (BuildsDb.oldest_started (db (controller w))
          (started w - max_started (settings (env w))))
       Method.stop stopper_wake w
  /\ acts_on_candidates
       (deployed w - max_deployed (settings (env w)))
       (BuildsDb.oldest_stopped (db (controller w))
          (deployed w - max_deployed (settings (env w))))
       Method.undeploy undeployer_wake w.
Proof. exact (passes_act_on_candidates w). Qed.

Lemma schedulers_act_within_capacity_witness :
  let w := Sample.crowded in
  (Z.of_nat (length (BuildsDb.oldest_started (db (controller w)) 2)) <= 2)%Z
  /\ controller (snd (stopper_wake w)) = controller w.
Proof.
  intros w.
  pose proof (proj1 (proj2 (schedulers_act_within_capacity Sample.crowded)) eq_refl)
    as H.
  exact (conj (proj1 H) (proj1 (proj2 H))).
Defined.

(** Against C1 as worded, with the capacity of every scheduler read as
    limit minus count: with [max_started = 3] and five started builds that
    number is -2 for the stopper, which leaves room for no action, and the
    stopper awaits [stop()] on the two oldest started builds. *)
Lemma stopper_capacity_is_not_limit_minus_count :
  limit_minus_count_started Sample.crowded = (-2)%Z
  /\ build_calls (trace (snd (stopper_wake Sample.crowded)))
     = [(Method.stop, Sample.d); (Method.stop, Sample.b)]
  /\ ~ (actions_of stopper_wake Sample.crowded
        <= Z.max 0 (limit_minus_count_started Sample.crowded))%Z.
Proof.
  split; [reflexivity|]. split; [reflexivity|].
  vm_compute. intros H. now apply H.
Qed.

Lemma goes_back_to_sleep_shape capacity candidates message action (w : World) :
  goes_back_to_sleep (capacity w) (candidates (db (controller w)) (capacity w))
    (bounded_pass capacity candidates message action)
    (fun fuel =>
       while_true fuel (_sleep ;; bounded_pass capacity candidates message action))
    w.
Proof.
  intros H. pose proof (bounded_pass_idle capacity candidates message action w H) as Hp.
  split; [exact Hp|]. intros fuel w0 Hs. now apply while_true_step.
Qed.

(** C2: a pass of a scheduler whose computed capacity is not positive, or
    whose query returns no candidate, awaits no Build action and has no
    effect at all: the world after it is the world before it, and the
    loop is at its next [_sleep] (see [goes_back_to_sleep]).  With
    [max_started = 3]: while exactly three builds are started the stopper
    stops none, whatever else the index holds; once more than three are
    started it awaits [stop()] on one at least. *)
Theorem schedulers_idle_without_capacity (w : World) :
  goes_back_to_sleep
    (max_initializing (settings (env w)) - initializing w)
    (BuildsDb.to_initialize (db (controller w))
       (max_initializing (settings (env w)) - initializing w))
    initializer_wake initializer w
  /\ goes_back_to_sleep
       (started w - max_started (settings (env w)))
       (BuildsDb.oldest_started (db (controller w))
          (started w - max_started (settings (env w))))
       stopper_wake stopper w
  /\ goes_back_to_sleep
       (deployed w - max_deployed (settings (env w)))
       (BuildsDb.oldest_stopped (db (controller w))
          (deployed w - max_deployed (settings (env w))))
       undeployer_wake undeployer w
  /\ (max_started (settings (env w)) = 3%Z ->
      (started w = 3%Z ->
       stopper_wake w = (Done tt, w) /\ actions_of stopper_wake w = 0%Z)
      /\ ((3 < started w)%Z -> (1 <= actions_of stopper_wake w)%Z)).
Proof.
  assert (Hstop : goes_back_to_sleep
                    (started w - max_started (settings (env w)))
                    (BuildsDb.oldest_started (db (controller w))
                       (started w - max_started (settings (env w))))
                    stopper_wake stopper w).
  { unfold stopper. destruct scheduler_shapes as (_ & -> & _).
    exact (goes_back_to_sleep_shape
             (fun w => started w - max_started (settings (env w)))
             BuildsDb.oldest_started _ Method.stop w). }
  split; [|split; [exact Hstop|split]].
  - unfold initializer. destruct scheduler_shapes as (-> & _ & _).
    exact (goes_back_to_sleep_shape
             (fun w => max_initializing (settings (env w)) - initializing w)
             BuildsDb.to_initialize _ Method.initialize w).
  - unfold undeployer. destruct scheduler_shapes as (_ & _ & ->).
    exact (goes_back_to_sleep_shape
             (fun w => deployed w - max_deployed (settings (env w)))
             BuildsDb.oldest_stopped _ Method.undeploy w).
  - intros Hmax. split.
    + intros Hthree. destruct Hstop as [Hp _]; [left; lia|].
      split; [exact Hp|]. unfold actions_of. rewrite Hp. simpl. lia.
    + intros Hmore.
      destruct (proj1 (proj2 (passes_act_on_candidates w)))
        as (_ & _ & k & Hk & Hne & Hcalls & _); [lia|].
      unfold actions_of. rewrite Hcalls, length_app, length_map, length_take.
      assert (1 <= k)%nat; [|lia].
      apply Hne. intros Hnil. apply (f_equal (@length Build)) in Hnil.
      unfold BuildsDb.oldest_started in Hnil.
      rewrite length_firstn, oldest_first_length in Hnil. simpl in Hnil.
      unfold started, BuildsDb.count_by_status in Hmore, Hnil. lia.
Qed.

Lemma schedulers_idle_without_capacity_witness :
  stopper_wake Sample.full = (Done tt, Sample.full)
  /\ actions_of stopper_wake Sample.full = 0%Z.
Proof.
  exact (proj1 (proj2 (proj2 (proj2 (schedulers_idle_without_capacity Sample.full)))
                  eq_refl)
           eq_refl).
Defined.

(** ** walking_dead *)

Lemma deployment_watcher_resets (fuel : nat) (w : World) :
  deployment_watcher fuel w
  = async_for fuel (await_value watch_deployments_next next_deployment)
      deployment_watcher_step
      (set_controller (set_db BuildsDb.empty (controller w)) w).
Proof. reflexivity. Qed.

(** C5: when the call of a loop function under [walking_dead] raises an
    exception, the supervisor logs it, awaits [asyncio.sleep(5)], and,
    once that returns, logs the restart and calls the same function again
    from its start.  For the deployment watcher that start is [reset]: the
    stream is read, from its first event on, with an empty index, and
    [reset] itself reads nothing.  The five loops are the functions
    [bound_method f n]. *)
Theorem walking_dead_restarts
    (func : Func) (fuel : nat) (w w1 : World) (e : exn) :
  call func (record_effect (Log INFO ("(Re)starting " ++ __name__ func)) w)
  = (Raised e, w1) ->
  let logged :=
    record_effect
      (Log EXCEPTION ("Unhandled exception in " ++ __name__ func
                      ++ ", restarting in 5 sec.")) w1 in
  let slept := record_effect (Await (asyncio_sleep 5)) logged in
  walking_dead_pass func w = await (asyncio_sleep 5) logged
  /\ (resolve (env w1) (trace logged) (asyncio_sleep 5) = Done tt ->
      walking_dead (S (S fuel)) func w
      = (try_except (call func) (fun _ => walking_dead_handler func) ;;
         walking_dead fuel func)
          (record_effect (Log INFO ("(Re)starting " ++ __name__ func)) slept))
  /\ forall (n : nat) (w2 : World),
       let fresh := set_controller (set_db BuildsDb.empty (controller w2)) w2 in
       call (bound_method deployment_watcher_fn n) w2
       = async_for n (await_value watch_deployments_next next_deployment)
           deployment_watcher_step fresh
       /\ db (controller fresh) = BuildsDb.empty
       /\ trace fresh = trace w2.
Proof.
  intros Hcall logged slept.
  assert (Hpass : walking_dead_pass func w = await (asyncio_sleep 5) logged).
  { unfold walking_dead_pass. unfold bind, log, emit, try_except.
    rewrite Hcall. unfold walking_dead_handler, bind, log, emit. reflexivity. }
  split; [exact Hpass|]. split.
  - intros Hsleep. unfold walking_dead.
    change (while_true (S (S fuel)) (walking_dead_pass func) w)
      with (bind (walking_dead_pass func)
              (fun _ => while_true (S fuel) (walking_dead_pass func)) w).
    unfold bind at 1. rewrite Hpass.
    unfold await, await_value. change (env logged) with (env w1).
    rewrite Hsleep. fold slept.
    reflexivity.
  - intros n w2 fresh. repeat split.
Qed.

Lemma walking_dead_restarts_witness :
  let func := bound_method deployment_watcher_fn 1 in
  let w := Sample.world Sample.flaky [Sample.a] in
  let w1 :=
    {| env := Sample.flaky; controller := Controller_init; loop_tasks := [];
       trace := [Log INFO "(Re)starting deployment_watcher";
                 Await watch_deployments_next] |} in
  let logged :=
    record_effect
      (Log EXCEPTION
         "Unhandled exception in deployment_watcher, restarting in 5 sec.") w1 in
  walking_dead_pass func w = await (asyncio_sleep 5) logged
  /\ trace (snd (walking_dead 2 func w))
     = [Log INFO "(Re)starting deployment_watcher";
        Await watch_deployments_next;
        Log EXCEPTION "Unhandled exception in deployment_watcher, restarting in 5 sec.";
        Await (asyncio_sleep 5);
        Log INFO "(Re)starting deployment_watcher";
        Await watch_deployments_next].
Proof.
  intros func w w1 logged.
  pose proof (walking_dead_restarts func 0 w w1 (Error "connection reset") eq_refl)
    as (Hpass & Hrestart & _).
  split; [exact Hpass|].
  rewrite (Hrestart eq_refl). reflexivity.
Defined.

(** ** start and stop *)

Lemma for_each_task_cancel (hs : list nat) (w : World) :
  for_each hs task_cancel w
  = (Done tt, set_loop_tasks (cancel_all hs (loop_tasks w)) w).
Proof.
  revert w. induction hs as [|h hs IH]; intros w.
  - now destruct w.
  - simpl. unfold bind. unfold task_cancel at 1. rewrite IH. reflexivity.
Qed.

Lemma cancel_all_lookup (hs : list nat) (ts : list Task) (h : nat) (t : Task) :
  ts !! h = Some t ->
  cancel_all hs ts !! h
  = Some (if bool_decide (h ∈ hs) then cancel_requested t else t).
Proof.
  revert ts t. induction hs as [|h' hs IH]; intros ts t Ht; [exact Ht|].
  simpl. destruct (decide (h = h')) as [<-|Hne].
  - rewrite (IH _ (cancel_requested t)).
    + rewrite (bool_decide_eq_true_2 (h ∈ h :: hs)) by constructor.
      destruct (bool_decide (h ∈ hs)); reflexivity.
    + rewrite list_lookup_alter, decide_True by reflexivity. now rewrite Ht.
  - rewrite (IH _ t).
    + destruct (bool_decide (h ∈ hs)) eqn:E.
      * apply bool_decide_eq_true_1 in E.
        now rewrite (bool_decide_eq_true_2 (h ∈ h' :: hs)) by now constructor.
      * apply bool_decide_eq_false_1 in E.
        rewrite (bool_decide_eq_false_2 (h ∈ h' :: hs)); [reflexivity|].
        intros Hin. apply elem_of_cons in Hin as [?|?]; contradiction.
    + rewrite list_lookup_alter, decide_False by congruence. exact Ht.
Qed.

Lemma start_spec (w : World) :
  let n := length (loop_tasks w) in
  fst (start w) = Done tt
  /\ _tasks (controller (snd (start w)))
     = (_tasks (controller w) ++ [n; S n; S (S n); S (S (S n)); S (S (S (S n)))])%list
  /\ _task (controller (snd (start w))) = _task (controller w).
Proof.
  intros n. unfold start. simpl. unfold bind, log, emit, create_task; simpl.
  rewrite <- !app_assoc. simpl. rewrite !length_app. simpl.
  repeat split. repeat f_equal; lia.
Qed.

(** C10: [stop] cancels every task of [_tasks], awaits them, and then
    assigns the empty list to [_task]: when it returns, [_tasks] is the
    list it was, its tasks cancelled, and a [start] after it appends the
    five new tasks behind those. *)
Theorem stop_keeps_tasks (w w' : World) :
  stop w = (Done tt, w') ->
  _tasks (controller w') = _tasks (controller w)
  /\ _task (controller w') = Some []
  /\ (forall (h : nat) (t : Task),
        h ∈ _tasks (controller w) -> loop_tasks w !! h = Some t ->
        loop_tasks w' !! h = Some (cancel_requested t))
  /\ let n := length (loop_tasks w') in
     fst (start w') = Done tt
     /\ _tasks (controller (snd (start w')))
        = (_tasks (controller w)
           ++ [n; S n; S (S n); S (S (S n)); S (S (S (S n)))])%list.
Proof.
  intros Hstop. unfold stop in Hstop.
  unfold bind at 1 in Hstop. unfold log, emit in Hstop.
  unfold bind at 1 in Hstop. unfold bind at 1 in Hstop. unfold get_world at 1 in Hstop.
  rewrite for_each_task_cancel in Hstop.
  unfold bind at 1 in Hstop. unfold bind at 1 in Hstop. unfold get_world in Hstop.
  unfold await, await_value in Hstop.
  destruct (resolve _ _ _) as [[]| | |]; try discriminate.
  unfold modify_controller in Hstop. injection Hstop as <-.
  split; [reflexivity|]. split; [reflexivity|]. split.
  - intros h t Hin Ht. simpl. rewrite (cancel_all_lookup _ _ _ _ Ht).
    now rewrite bool_decide_eq_true_2.
  - intros n. subst n.
    match goal with
    | |- context [start ?W] => destruct (start_spec W) as (H1 & H2 & _)
    end.
    split; [exact H1|]. rewrite H2. reflexivity.
Qed.

Lemma stop_keeps_tasks_witness :
  let w := snd (start (Sample.world Sample.quiet [])) in
  let w' := snd (stop w) in
  _tasks (controller w') = [0; 1; 2; 3; 4]%nat
  /\ _task (controller w') = Some []
  /\ _tasks (controller (snd (start w'))) = [0; 1; 2; 3; 4; 5; 6; 7; 8; 9]%nat.
Proof.
  intros w w'.
  pose proof (stop_keeps_tasks w w' eq_refl) as (H1 & H2 & _ & _ & H3).
  exact (conj H1 (conj H2 H3)).
Defined.

(** ** Frames *)

Section Frame.

Context {K : Controller -> Controller -> Prop} {P : Effect -> bool}.
Hypothesis K_refl : forall c, K c c.
Hypothesis K_trans : forall a b c, K a b -> K b c -> K a c.

Lemma frame_refl (w : World) : frame K P w w.
Proof.
  repeat split; [apply K_refl|]. exists []. now rewrite app_nil_r.
Qed.

Lemma frame_trans (w1 w2 w3 : World) :
  frame K P w1 w2 -> frame K P w2 w3 -> frame K P w1 w3.
Proof.
  intros (He1 & Hl1 & Hk1 & d1 & Ht1 & Hp1) (He2 & Hl2 & Hk2 & d2 & Ht2 & Hp2).
  repeat split; [congruence | congruence | eauto |].
  exists (d1 ++ d2)%list. rewrite Ht2, Ht1, <- app_assoc. split; [reflexivity|].
  rewrite forallb_app. now rewrite Hp1, Hp2.
Qed.

Lemma frame_effect (e : Effect) (w : World) :
  P e = true -> frame K P w (record_effect e w).
Proof.
  intros He. repeat split; [apply K_refl|]. exists [e]. simpl. now rewrite He.
Qed.

Lemma stays_ret {A} (a : A) : stays K P (ret a).
Proof. intros w. apply frame_refl. Qed.

Lemma stays_pending {A} : stays K P (@pending A).
Proof. intros w. apply frame_refl. Qed.

Lemma stays_get_world : stays K P get_world.
Proof. intros w. apply frame_refl. Qed.

Lemma stays_bind {A B} (m : M A) (k : A -> M B) :
  stays K P m -> (forall a, stays K P (k a)) -> stays K P (bind m k).
Proof.
  intros Hm Hk w. unfold bind. specialize (Hm w).
  destruct (m w) as [[a| e | |] w1]; simpl in *; try exact Hm.
  eapply frame_trans; [exact Hm | apply Hk].
Qed.

Lemma stays_emit (e : Effect) : P e = true -> stays K P (emit e).
Proof. intros He w. now apply frame_effect. Qed.

Lemma stays_await_value {A} (c : Call) (v : Env -> list Effect -> A) :
  P (Await c) = true -> stays K P (await_value c v).
Proof. intros Hc w. rewrite await_value_world. now apply frame_effect. Qed.

Lemma stays_await (c : Call) : P (Await c) = true -> stays K P (await c).
Proof. apply stays_await_value. Qed.

Lemma stays_modify (f : Controller -> Controller) :
  (forall c, K c (f c)) -> stays K P (modify_controller f).
Proof.
  intros Hf w. repeat split; [apply Hf|]. exists []. simpl. now rewrite app_nil_r.
Qed.

Lemma stays_try_except {A} (m : M A) (handler : exn -> M A) :
  stays K P m -> (forall e, stays K P (handler e)) -> stays K P (try_except m handler).
Proof.
  intros Hm Hh w. unfold try_except. specialize (Hm w).
  destruct (m w) as [[a| e | |] w1]; simpl in *; try exact Hm.
  eapply frame_trans; [exact Hm | apply Hh].
Qed.

Lemma stays_suppress (m : M unit) :
  stays K P m -> stays K P (suppress_TimeoutError m).
Proof.
  intros Hm w. unfold suppress_TimeoutError. specialize (Hm w).
  now destruct (m w) as [[[]| [|msg] | |] w1].
Qed.

Lemma stays_for_each {A} (l : list A) (body : A -> M unit) :
  (forall x, stays K P (body x)) -> stays K P (for_each l body).
Proof.
  intros Hb. induction l as [|x l IH]; simpl.
  - apply stays_ret.
  - apply stays_bind; [apply Hb | intros _; exact IH].
Qed.

Lemma stays_while_true (fuel : nat) (body : M unit) :
  stays K P body -> stays K P (while_true fuel body).
Proof.
  intros Hb. induction fuel as [|n IH]; simpl.
  - apply stays_pending.
  - apply stays_bind; [exact Hb | intros _; exact IH].
Qed.

Lemma stays_async_for {R} (fuel : nat) (next : M (option (string * R)))
    (body : string -> R -> M unit) :
  stays K P next -> (forall et r, stays K P (body et r)) ->
  stays K P (async_for fuel next body).
Proof.
  intros Hn Hb. induction fuel as [|n IH]; simpl.
  - apply stays_pending.
  - apply stays_bind; [exact Hn|]. intros [[et r]|].
    + apply stays_bind; [apply Hb | intros _; exact IH].
    + apply stays_ret.
Qed.

End Frame.

Lemma stays_weaken {A} (K : Controller -> Controller -> Prop)
    (P Q : Effect -> bool) (m : M A) :
  (forall e, P e = true -> Q e = true) -> stays K P m -> stays K Q m.
Proof.
  intros HPQ Hm w. destruct (Hm w) as (He & Hl & Hk & d & Ht & Hp).
  repeat split; try assumption. exists d. split; [exact Ht|].
  rewrite forallb_forall in *. intros e He'. apply HPQ, Hp, He'.
Qed.

(** the loops never return: [while True] has no [break] *)
Lemma while_true_never_done (fuel : nat) (body : M unit) (w : World) :
  fst (while_true fuel body w) <> Done tt.
Proof.
  revert w. induction fuel as [|n IH]; intros w; simpl; [discriminate|].
  unfold bind. destruct (body w) as [[[]| e | |] w1]; simpl; try discriminate.
  apply IH.
Qed.

(** ** What the loops leave alone *)

Lemma keeps_tasks_refl (c : Controller) : keeps_tasks c c.
Proof. now repeat split. Qed.

Lemma keeps_tasks_trans (a b c : Controller) :
  keeps_tasks a b -> keeps_tasks b c -> keeps_tasks a c.
Proof.
  intros (H1 & H2 & H3) (H4 & H5 & H6). repeat split; try congruence. auto.
Qed.

Lemma stays_wakeup : stays keeps_tasks deployment_watcher_effect _wakeup.
Proof.
  intros w. repeat split. exists [EventSet; EventClear].
  split; [|reflexivity]. simpl. now rewrite <- app_assoc.
Qed.

Lemma stays_deployment_watcher_step (event_type : string) (d : Deployment) :
  stays keeps_tasks deployment_watcher_effect (deployment_watcher_step event_type d).
Proof.
  pose proof keeps_tasks_refl as R. pose proof keeps_tasks_trans as T.
  unfold deployment_watcher_step.
  destruct (negb (truthy_str (deployment_labels d !! "runboat/build")));
    [now apply stays_ret|].
  apply stays_bind; [assumption | now apply stays_emit |]. intros _.
  apply stays_bind; [assumption | | intros _; apply stays_wakeup].
  destruct (is_added_or_modified event_type);
    [apply stays_modify; intros c; now repeat split|].
  destruct (String.eqb event_type "DELETED");
    [apply stays_modify; intros c; now repeat split|].
  now apply stays_emit.
Qed.

Lemma stays_deployment_watcher (fuel : nat) :
  stays keeps_tasks deployment_watcher_effect (deployment_watcher fuel).
Proof.
  pose proof keeps_tasks_refl as R. pose proof keeps_tasks_trans as T.
  unfold deployment_watcher, reset.
  apply stays_bind; [assumption | |].
  - apply stays_modify. intros c. now repeat split.
  - intros _. apply stays_async_for; [assumption.. | |].
    + now apply stays_await_value.
    + apply stays_deployment_watcher_step.
Qed.

(** X1: whatever the stream delivers and however long it is watched, the
    deployment watcher only logs, sets and clears the wake-up event and
    reads its stream: it awaits no Build action, hook or lookup.  Of the
    controller it changes the index only: [_tasks] and [_task] are as
    before, and a wake-up event that was down is down again when the
    watcher stops.  The task table and the environment are untouched. *)
Theorem deployment_watcher_frame (fuel : nat) (w : World) :
  let w' := snd (deployment_watcher fuel w) in
  env w' = env w /\ loop_tasks w' = loop_tasks w
  /\ (_tasks (controller w') = _tasks (controller w)
      /\ _task (controller w') = _task (controller w)
      /\ (_wakeup_event (controller w) = false ->
          _wakeup_event (controller w') = false))
  /\ exists delta : list Effect,
       trace w' = (trace w ++ delta)%list
       /\ forallb deployment_watcher_effect delta = true.
Proof. exact (stays_deployment_watcher fuel w). Qed.

Lemma deployment_watcher_frame_witness :
  let w := Sample.world Sample.flaky [Sample.a] in
  _wakeup_event (controller (snd (deployment_watcher 3 w))) = false.
Proof.
  intros w.
  exact (proj2 (proj2 (proj1 (proj2 (proj2 (deployment_watcher_frame 3 w)))))
           eq_refl).
Defined.

Lemma is_hook_for (kind : string) (st : JobStatus) : is_hook (hook_for kind st) = true.
Proof.
  unfold hook_for.
  now destruct (String.eqb kind "initialize"), (truthy_int (succeeded st)),
    (truthy_int (failed st)).
Qed.

Lemma stays_job_watcher_dispatch (k : option string) (job : Job) (b : Build) :
  stays eq job_watcher_effect (job_watcher_dispatch k job b).
Proof.
  assert (R : forall c : Controller, c = c) by reflexivity.
  assert (T : forall a b c : Controller, a = b -> b = c -> a = c) by congruence.
  unfold job_watcher_dispatch.
  apply stays_bind; [assumption | | intros _].
  - destruct (bool_decide (k = Some "initialize")); [|now apply stays_ret].
    destruct (truthy_int (succeeded (job_status job)));
      [|destruct (truthy_int (failed (job_status job)))]; now apply stays_await.
  - destruct (bool_decide (k = Some "cleanup")); [|now apply stays_ret].
    destruct (truthy_int (succeeded (job_status job)));
      [|destruct (truthy_int (failed (job_status job)))]; now apply stays_await.
Qed.

Lemma stays_job_watcher_step (event_type : string) (job : Job) :
  stays eq job_watcher_effect (job_watcher_step event_type job).
Proof.
  assert (R : forall c : Controller, c = c) by reflexivity.
  assert (T : forall a b c : Controller, a = b -> b = c -> a = c) by congruence.
  unfold job_watcher_step.
  destruct (negb (truthy_str (job_labels job !! "runboat/build")));
    [now apply stays_ret|].
  destruct (negb (is_job_kind (job_labels job !! "runboat/job-kind")));
    [now apply stays_ret|].
  apply stays_bind; [assumption | now apply stays_emit | intros _].
  destruct (is_added_or_modified event_type).
  - apply stays_bind; [assumption | |].
    + unfold job_watcher_resolve_build.
      apply stays_bind; [assumption | now apply stays_get_world |]. intros w0.
      destruct (BuildsDb.get (db (controller w0)) _);
        [now apply stays_ret | now apply stays_await_value].
    + intros [b|]; [apply stays_job_watcher_dispatch | now apply stays_ret].
  - destruct (String.eqb event_type "DELETED");
      [now apply stays_ret | now apply stays_emit].
Qed.

Lemma stays_job_watcher (fuel : nat) :
  stays eq job_watcher_effect (job_watcher fuel).
Proof.
  assert (R : forall c : Controller, c = c) by reflexivity.
  assert (T : forall a b c : Controller, a = b -> b = c -> a = c) by congruence.
  unfold job_watcher. apply stays_async_for; [assumption.. | |].
  - now apply stays_await_value.
  - apply stays_job_watcher_step.
Qed.

(** X2: however long it runs and whatever it receives, the job watcher
    leaves the controller (index, task handles, wake-up event) and the
    task table exactly as they were, and all it does is log, read its
    stream, call [Build.from_name] and call transition hooks: it never
    awaits [deploy], [start], [stop], [undeploy] or [initialize] and never
    signals the wake-up event. *)
Theorem job_watcher_frame (fuel : nat) (w : World) :
  let w' := snd (job_watcher fuel w) in
  env w' = env w /\ loop_tasks w' = loop_tasks w
  /\ controller w' = controller w
  /\ exists delta : list Effect,
       trace w' = (trace w ++ delta)%list
       /\ forallb job_watcher_effect delta = true.
Proof.
  destruct (stays_job_watcher fuel w) as (He & Hl & Hc & Hd). now repeat split.
Qed.

Lemma stays_weaken_K {A} (K K' : Controller -> Controller -> Prop)
    (P : Effect -> bool) (m : M A) :
  (forall c c', K c c' -> K' c c') -> stays K P m -> stays K' P m.
Proof.
  intros HK Hm w. destruct (Hm w) as (He & Hl & Hk & Hd).
  repeat split; try assumption. now apply HK.
Qed.

Lemma stays_sleep (action : Method.t) : stays eq (scheduler_effect action) _sleep.
Proof.
  unfold _sleep. apply stays_suppress. now apply stays_await.
Qed.

Lemma stays_bounded_pass capacity candidates message (action : Method.t) :
  stays eq (scheduler_effect action)
    (bounded_pass capacity candidates message action).
Proof.
  assert (R : forall c : Controller, c = c) by reflexivity.
  assert (T : forall a b c : Controller, a = b -> b = c -> a = c) by congruence.
  unfold bounded_pass.
  apply stays_bind; [assumption | now apply stays_get_world |]. intros w0.
  destruct (capacity w0 <=? 0)%Z; [now apply stays_ret|].
  destruct (is_empty _); [now apply stays_ret|].
  apply stays_bind; [assumption | now apply stays_emit | intros _].
  apply stays_for_each; [assumption.. |]. intros b.
  apply stays_await; [assumption|]. simpl. now apply bool_decide_eq_true_2.
Qed.

Lemma stays_schedulers (fuel : nat) :
  stays eq (scheduler_effect Method.initialize) (initializer fuel)
  /\ stays eq (scheduler_effect Method.stop) (stopper fuel)
  /\ stays eq (scheduler_effect Method.undeploy) (undeployer fuel).
Proof.
  assert (R : forall c : Controller, c = c) by reflexivity.
  assert (T : forall a b c : Controller, a = b -> b = c -> a = c) by congruence.
  unfold initializer, stopper, undeployer.
  destruct scheduler_shapes as (-> & -> & ->).
  split; [|split]; apply stays_while_true; try assumption;
    (apply stays_bind; [assumption | apply stays_sleep |]);
    intros _; apply stays_bounded_pass.
Qed.

(** X3: however long they run, the initializer, the stopper and the
    undeployer never return, leave the controller and the task table
    exactly as they were (they only read the index), and do nothing but
    log at info level, wait for the wake-up event and await their own
    action: the initializer never stops or undeploys a build, the stopper
    never initializes or undeploys one, the undeployer never initializes
    or stops one. *)
Theorem schedulers_frame (fuel : nat) (w : World) :
  (frame eq (scheduler_effect Method.initialize) w (snd (initializer fuel w))
   /\ fst (initializer fuel w) <> Done tt)
  /\ (frame eq (scheduler_effect Method.stop) w (snd (stopper fuel w))
      /\ fst (stopper fuel w) <> Done tt)
  /\ (frame eq (scheduler_effect Method.undeploy) w (snd (undeployer fuel w))
      /\ fst (undeployer fuel w) <> Done tt).
Proof.
  destruct (stays_schedulers fuel) as (Hi & Hs & Hu).
  split; [|split]; (split; [|apply while_true_never_done]).
  - apply Hi.
  - apply Hs.
  - apply Hu.
Qed.

(** ** The supervisor *)

Section Supervisor.

Context {K : Controller -> Controller -> Prop} {P : Effect -> bool}.
Hypothesis K_refl : forall c, K c c.
Hypothesis K_trans : forall a b c, K a b -> K b c -> K a c.

Lemma stays_walking_dead (fuel : nat) (func : Func) :
  stays K P (call func) ->
  stays K (supervised_effect P) (walking_dead fuel func).
Proof.
  intros Hf. unfold walking_dead. apply stays_while_true; try assumption.
  unfold walking_dead_pass.
  apply stays_bind; [assumption | now apply stays_emit | intros _].
  apply stays_try_except; [assumption | |].
  - apply (stays_weaken K P); [|exact Hf].
    intros e He. destruct e as [[] msg| | |c]; simpl; try exact He; try reflexivity.
    destruct c; simpl; try exact He; reflexivity.
  - intros _. unfold walking_dead_handler.
    apply stays_bind; [assumption | now apply stays_emit | intros _].
    now apply stays_await.
Qed.

End Supervisor.

Lemma stays_loops (f : LoopFn) (n : nat) :
  stays keeps_tasks (fun _ => true) (call (bound_method f n))
  /\ (f <> deployment_watcher_fn ->
      stays eq (fun _ => true) (call (bound_method f n))).
Proof.
  assert (E : forall (A : Type) (Q : Effect -> bool) (m : M A),
             stays eq Q m -> stays eq (fun _ => true) m).
  { intros A Q m. now apply stays_weaken. }
  assert (W : forall (A : Type) (m : M A),
             stays eq (fun _ => true) m -> stays keeps_tasks (fun _ => true) m).
  { intros A m. apply stays_weaken_K. intros c c' <-. now repeat split. }
  destruct (stays_schedulers n) as (Hi & Hs & Hu).
  destruct f; simpl.
  - split; [|congruence].
    now apply (stays_weaken keeps_tasks deployment_watcher_effect),
      stays_deployment_watcher.
  - split; [apply W|intros _]; apply (E _ _ _ (stays_job_watcher n)).
  - split; [apply W|intros _]; apply (E _ _ _ Hi).
  - split; [apply W|intros _]; apply (E _ _ _ Hs).
  - split; [apply W|intros _]; apply (E _ _ _ Hu).
Qed.

(** X4: a supervised loop, whichever of the five and however long it
    runs, restarts included, never returns and never touches the task
    handles [_tasks] and [_task], the task table or the environment; and
    unless it is the deployment watcher it leaves the whole controller,
    index included, as it was: the deployment watcher is the only writer
    of the index. *)
Theorem supervised_loops_frame (f : LoopFn) (n fuel : nat) (w : World) :
  let r := walking_dead fuel (bound_method f n) w in
  fst r <> Done tt
  /\ env (snd r) = env w /\ loop_tasks (snd r) = loop_tasks w
  /\ _tasks (controller (snd r)) = _tasks (controller w)
  /\ _task (controller (snd r)) = _task (controller w)
  /\ (f <> deployment_watcher_fn -> controller (snd r) = controller w).
Proof.
  intros r. subst r. destruct (stays_loops f n) as [Hk He].
  split; [apply while_true_never_done|].
  pose proof (stays_walking_dead keeps_tasks_refl keeps_tasks_trans fuel _ Hk w)
    as (H1 & H2 & (H3 & H4 & _) & _).
  repeat split; try assumption.
  intros Hf.
  assert (R : forall c : Controller, c = c) by reflexivity.
  assert (T : forall a b c : Controller, a = b -> b = c -> a = c) by congruence.
  pose proof (stays_walking_dead R T fuel _ (He Hf) w) as (_ & _ & Hc & _).
  now symmetry.
Qed.

Lemma supervised_loops_frame_witness :
  let w := Sample.world Scenario.stop_fails [Sample.a; Sample.b; Sample.c; Sample.d] in
  controller (snd (walking_dead 3 (bound_method stopper_fn 3) w)) = controller w.
Proof.
  intros w.
  exact (proj2 (proj2 (proj2 (proj2 (proj2
           (supervised_loops_frame stopper_fn 3 3 w)))))
           ltac:(discriminate)).
Defined.

Lemma walking_dead_pass_raised (func : Func) (w : World) (e : exn) :
  fst (walking_dead_pass func w) = Raised e ->
  exists tr : list Effect,
    trace (snd (walking_dead_pass func w)) = (tr ++ [Await (asyncio_sleep 5)])%list.
Proof.
  unfold walking_dead_pass, bind, log, emit, try_except.
  destruct (call func _) as [[[]| e1 | |] w1]; simpl; try discriminate.
  unfold walking_dead_handler, bind, log, emit. rewrite await_world. simpl.
  intros _. eexists. reflexivity.
Qed.

(** X5: no exception of the supervised function escapes [walking_dead]:
    when [walking_dead] ends with an exception, the last thing it did was
    to await the backoff [asyncio.sleep(5)] of its [except] block, the
    only call it makes outside the [try]. *)
Theorem walking_dead_contains_exceptions
    (fuel : nat) (func : Func) (w : World) (e : exn) :
  fst (walking_dead fuel func w) = Raised e ->
  exists tr : list Effect,
    trace (snd (walking_dead fuel func w))
    = (tr ++ [Await (asyncio_sleep 5)])%list.
Proof.
  unfold walking_dead. revert w.
  induction fuel as [|n IH]; intros w; simpl; [discriminate|].
  unfold bind.
  pose proof (walking_dead_pass_raised func w) as Hp.
  destruct (walking_dead_pass func w) as [[[]| e1 | |] w1]; simpl in *;
    try discriminate.
  - apply IH.
  - intros _. now apply (Hp e1).
Qed.

Lemma walking_dead_contains_exceptions_witness :
  let func := bound_method deployment_watcher_fn 1 in
  let w := Sample.world Scenario.sleep_fails [] in
  exists tr : list Effect,
    trace (snd (walking_dead 2 func w)) = (tr ++ [Await (asyncio_sleep 5)])%list.
Proof.
  intros func w.
  exact (walking_dead_contains_exceptions 2 func w (Error "loop closed") eq_refl).
Defined.

(** X6: cancellation is not an [Exception]: when the supervised function
    is cancelled, [walking_dead] ends cancelled there and then, without
    logging an unhandled exception, without backoff sleep and without
    restart; the same when the backoff sleep itself is cancelled. *)
Theorem walking_dead_cancelled (fuel : nat) (func : Func) (w w1 : World) :
  let restarting := Log INFO ("(Re)starting " ++ __name__ func) in
  (call func (record_effect restarting w) = (Cancelled, w1) ->
   walking_dead (S fuel) func w = (Cancelled, w1))
  /\ (forall e : exn,
        let logged :=
          record_effect
            (Log EXCEPTION ("Unhandled exception in " ++ __name__ func
                            ++ ", restarting in 5 sec.")) w1 in
        call func (record_effect restarting w) = (Raised e, w1) ->
        resolve (env w1) (trace logged) (asyncio_sleep 5) = Cancelled ->
        walking_dead (S fuel) func w
        = (Cancelled, record_effect (Await (asyncio_sleep 5)) logged)).
Proof.
  intros restarting. split.
  - intros Hc. unfold walking_dead. simpl.
    unfold bind at 1. unfold walking_dead_pass, bind, log, emit, try_except.
    fold restarting. now rewrite Hc.
  - intros e logged Hc Hs.
    assert (Hp : walking_dead_pass func w = await (asyncio_sleep 5) logged).
    { unfold walking_dead_pass, bind, log, emit, try_except. fold restarting.
      rewrite Hc. unfold walking_dead_handler, bind, log, emit. reflexivity. }
    unfold walking_dead. simpl. unfold bind at 1. rewrite Hp.
    unfold await, await_value. change (env logged) with (env w1).
    now rewrite Hs.
Qed.

Lemma walking_dead_cancelled_witness :
  let func := bound_method job_watcher_fn 4 in
  let w := Sample.world Scenario.cancelling [Sample.a] in
  walking_dead 7 func w
  = (Cancelled,
     record_effect (Await watch_jobs_next)
       (record_effect (Log INFO "(Re)starting job_watcher") w)).
Proof.
  intros func w.
  exact (proj1 (walking_dead_cancelled 6 func w _) eq_refl).
Defined.

(** X7: when the supervised function returns instead of raising (for a
    watcher: its stream ended), [walking_dead] calls it again at once:
    it logs the restart and nothing else, with no exception log and no
    backoff sleep in between. *)
Theorem walking_dead_restarts_at_once
    (fuel : nat) (func : Func) (w w1 : World) :
  let restarting := Log INFO ("(Re)starting " ++ __name__ func) in
  call func (record_effect restarting w) = (Done tt, w1) ->
  walking_dead (S (S fuel)) func w
  = (try_except (call func) (fun _ => walking_dead_handler func) ;;
     walking_dead fuel func) (record_effect restarting w1).
Proof.
  intros restarting Hc. unfold walking_dead.
  change (while_true (S (S fuel)) (walking_dead_pass func) w)
    with (bind (walking_dead_pass func)
            (fun _ => while_true (S fuel) (walking_dead_pass func)) w).
  unfold bind at 1.
  assert (Hp : walking_dead_pass func w = (Done tt, w1)).
  { unfold walking_dead_pass, bind, log, emit, try_except. fold restarting.
    now rewrite Hc. }
  rewrite Hp. reflexivity.
Qed.

Lemma walking_dead_restarts_at_once_witness :
  let func := bound_method deployment_watcher_fn 2 in
  let w := Sample.world Sample.quiet [Sample.a] in
  trace (snd (walking_dead 2 func w))
  = [Log INFO "(Re)starting deployment_watcher"; Await watch_deployments_next;
     Log INFO "(Re)starting deployment_watcher"; Await watch_deployments_next].
Proof.
  intros func w.
  rewrite (walking_dead_restarts_at_once 0 func w _ eq_refl). reflexivity.
Defined.

(** ** Failures inside a pass, and the sleep *)

Lemma bounded_pass_first_fails capacity candidates message action (w : World) :
  aborts_at_first_failure (capacity w)
    (candidates (db (controller w)) (capacity w)) action
    (bounded_pass capacity candidates message action) w.
Proof.
  intros b rest e Hcap Hsel Hres.
  unfold bounded_pass, bind, get_world.
  destruct (Z.leb_spec (capacity w) 0) as [Hle|_]; [lia|].
  rewrite Hsel. cbn [is_empty for_each]. unfold log, emit, bind.
  pose proof (await_world (Build_call action b)
                (record_effect (Log INFO (message w (b :: rest))) w)) as Hw.
  pose proof (await_outcome (Build_call action b)
                (record_effect (Log INFO (message w (b :: rest))) w)) as Ho.
  change (env (record_effect _ w)) with (env w) in Ho. rewrite Hres in Ho.
  destruct (await (Build_call action b) _) as [o w1]. simpl in Hw, Ho. subst o w1.
  split; [reflexivity|]. simpl.
  rewrite !build_calls_app. simpl. now rewrite app_nil_r.
Qed.

(** X8: when the action of a scheduler raises on the first candidate of a
    pass, the pass ends with that exception at once: the remaining
    candidates of that pass are not acted on (the exception goes to the
    supervisor). *)
Theorem failed_action_aborts_pass (w : World) :
  aborts_at_first_failure
    (max_initializing (settings (env w)) - initializing w)
    (BuildsDb.to_initialize (db (controller w))
       (max_initializing (settings (env w)) - initializing w))
    Method.initialize initializer_wake w
  /\ aborts_at_first_failure
       (started w - max_started (settings (env w)))
       (BuildsDb.oldest_started (db (controller w))
          (started w - max_started (settings (env w))))
       Method.stop stopper_wake w
  /\ aborts_at_first_failure
       (deployed w - max_deployed (settings (env w)))
       (BuildsDb.oldest_stopped (db (controller w))
          (deployed w - max_deployed (settings (env w))))
       Method.undeploy undeployer_wake w.
Proof.
  destruct scheduler_shapes as (-> & -> & ->).
  split; [|split].
  - exact (bounded_pass_first_fails
             (fun w => max_initializing (settings (env w)) - initializing w)
             BuildsDb.to_initialize _ Method.initialize w).
  - exact (bounded_pass_first_fails
             (fun w => started w - max_started (settings (env w)))
             BuildsDb.oldest_started _ Method.stop w).
  - exact (bounded_pass_first_fails
             (fun w => deployed w - max_deployed (settings (env w)))
             BuildsDb.oldest_stopped _ Method.undeploy w).
Qed.

Lemma failed_action_aborts_pass_witness :
  let w := Sample.world Scenario.stop_fails
             [Sample.a; Sample.b; Sample.c; Sample.d; Sample.e; Sample.f] in
  fst (stopper_wake w) = Raised (Error "scale down failed")
  /\ build_calls (trace (snd (stopper_wake w))) = [(Method.stop, Sample.d)].
Proof.
  intros w.
  exact (proj1 (proj2 (failed_action_aborts_pass w))
           Sample.d [Sample.b] (Error "scale down failed")
           eq_refl eq_refl (fun _ => eq_refl)).
Defined.

(** X9: [_sleep] never raises [TimeoutError]: a wait for the wake-up event
    that times out lets the loop go on to its pass exactly as a wake-up
    does.  Any other end of the wait (cancellation, another exception)
    ends [_sleep] the same way, and the pass is not run. *)
Theorem sleep_timeout_is_a_wake (pass : M unit) (w : World) :
  let waited := record_effect (Await (wakeup_event_wait 10)) w in
  let o := resolve (env w) (trace w) (wakeup_event_wait 10) in
  fst (_sleep w) <> Raised TimeoutError
  /\ (o = Done tt \/ o = Raised TimeoutError ->
      (_sleep ;; pass) w = pass waited)
  /\ (o <> Done tt -> o <> Raised TimeoutError ->
      (_sleep ;; pass) w = (o, waited)).
Proof.
  intros waited o. subst o waited.
  unfold bind, _sleep, suppress_TimeoutError, await, await_value.
  destruct (resolve (env w) (trace w) (wakeup_event_wait 10))
    as [[]| [|msg] | |]; simpl; repeat split; try discriminate; try reflexivity;
    try (intros [H|H]; discriminate); try (intros H; now destruct H);
    try (intros _ H; now destruct H).
Qed.

Lemma sleep_timeout_is_a_wake_witness :
  let w := Sample.world Scenario.timing_out
             [Sample.a; Sample.b; Sample.c; Sample.d; Sample.e] in
  build_calls (trace (snd ((_sleep ;; stopper_wake) w)))
  = [(Method.stop, Sample.d); (Method.stop, Sample.b)].
Proof.
  intros w.
  rewrite (proj1 (proj2 (sleep_timeout_is_a_wake stopper_wake w))
             (or_intror eq_refl)).
  reflexivity.
Defined.

(** ** start and stop, again *)

Lemma cancel_all_length (hs : list nat) (ts : list Task) :
  length (cancel_all hs ts) = length ts.
Proof.
  revert ts. induction hs as [|h hs IH]; intros ts; [reflexivity|].
  simpl. rewrite IH. apply length_alter.
Qed.

Lemma cancel_all_twice (hs : list nat) (ts : list Task) :
  cancel_all hs (cancel_all hs ts) = cancel_all hs ts.
Proof.
  apply list_eq. intros i.
  destruct (ts !! i) as [t|] eqn:Ht.
  - rewrite (cancel_all_lookup hs (cancel_all hs ts) i
               (if bool_decide (i ∈ hs) then cancel_requested t else t))
      by now apply cancel_all_lookup.
    rewrite (cancel_all_lookup hs ts i t Ht).
    now destruct (bool_decide (i ∈ hs)).
  - apply lookup_ge_None in Ht.
    rewrite !(proj2 (lookup_ge_None _ _)); [reflexivity | |];
      rewrite ?cancel_all_length; exact Ht.
Qed.

Lemma start_world (w : World) :
  loop_tasks (snd (start w)) = (loop_tasks w ++ started_tasks)%list
  /\ db (controller (snd (start w))) = db (controller w)
  /\ trace (snd (start w))
     = (trace w ++ [Log INFO "Starting controller tasks."])%list.
Proof.
  unfold start. simpl. unfold bind, log, emit, create_task; simpl.
  rewrite <- !app_assoc. now repeat split.
Qed.

Lemma stop_unfold (w : World) :
  stop w
  = (let* _ := await (asyncio_gather (_tasks (controller w))) in
     modify_controller (set_task []))
      (set_loop_tasks
         (cancel_all (_tasks (controller w)) (loop_tasks w))
         (record_effect (Log INFO "Stopping controller tasks.") w)).
Proof.
  unfold stop. unfold bind at 1. unfold log, emit.
  unfold bind at 1. unfold bind at 1. unfold get_world at 1.
  rewrite for_each_task_cancel.
  unfold bind at 1. unfold bind at 2. unfold get_world. reflexivity.
Qed.

Lemma stop_world (w : World) :
  _tasks (controller (snd (stop w))) = _tasks (controller w)
  /\ db (controller (snd (stop w))) = db (controller w)
  /\ loop_tasks (snd (stop w)) = cancel_all (_tasks (controller w)) (loop_tasks w).
Proof.
  rewrite stop_unfold. unfold bind, await, await_value, modify_controller.
  destruct (resolve _ _ _) as [[]| | |]; simpl; repeat split; reflexivity.
Qed.

(** X10: [start] and [stop] keep the task handles sound: when every handle
    of [_tasks] is a position of the task table before, it is after.
    [start] adds to the table, behind what is there, one task per loop, in
    the order deployment watcher, job watcher, initializer, stopper,
    undeployer, none of them cancelled, and leaves the index alone;
    [stop], however it ends, removes no task and no handle. *)
Theorem start_stop_keep_handles_valid (w : World) :
  handles_valid w ->
  (handles_valid (snd (start w))
   /\ loop_tasks (snd (start w)) = (loop_tasks w ++ started_tasks)%list
   /\ db (controller (snd (start w))) = db (controller w))
  /\ (handles_valid (snd (stop w))
      /\ length (loop_tasks (snd (stop w))) = length (loop_tasks w)
      /\ _tasks (controller (snd (stop w))) = _tasks (controller w)).
Proof.
  unfold handles_valid. intros Hv. split.
  - destruct (start_world w) as (Hl & Hd & _).
    destruct (start_spec w) as (_ & Ht & _).
    split; [|now split]. rewrite Ht, Hl. apply Forall_app. split.
    + eapply Forall_impl; [exact Hv|]. intros h Hh. simpl in *.
      rewrite length_app. lia.
    + rewrite length_app. simpl. repeat constructor; lia.
  - destruct (stop_world w) as (Ht & _ & Hl).
    rewrite Ht, Hl, cancel_all_length. now repeat split.
Qed.

Lemma start_stop_keep_handles_valid_witness :
  let w := snd (start (Sample.world Sample.quiet [])) in
  handles_valid (snd (start w)) /\ handles_valid (snd (stop w)).
Proof.
  intros w.
  assert (Hv : handles_valid w) by (repeat constructor).
  exact (conj (proj1 (proj1 (start_stop_keep_handles_valid w Hv)))
              (proj1 (proj2 (start_stop_keep_handles_valid w Hv)))).
Defined.

(** X11: stopping twice is stopping once: a second [stop] that returns
    after a first one that returned leaves the controller and the task
    table as the first left them (cancelling a cancelled task changes
    nothing). *)
Theorem stop_twice (w w1 w2 : World) :
  stop w = (Done tt, w1) -> stop w1 = (Done tt, w2) ->
  controller w2 = controller w1 /\ loop_tasks w2 = loop_tasks w1.
Proof.
  intros H1 H2.
  assert (E : forall v v', stop v = (Done tt, v') ->
              controller v' = set_task [] (controller v)
              /\ loop_tasks v' = cancel_all (_tasks (controller v)) (loop_tasks v)).
  { intros v v' Hs. rewrite stop_unfold in Hs.
    unfold bind, await, await_value, modify_controller in Hs.
    destruct (resolve _ _ _) as [[]| | |]; try discriminate.
    injection Hs as <-. now split. }
  destruct (E _ _ H1) as (Hc1 & Hl1). destruct (E _ _ H2) as (Hc2 & Hl2).
  split.
  - rewrite Hc2, Hc1. reflexivity.
  - rewrite Hl2, Hc1, Hl1. simpl. apply cancel_all_twice.
Qed.

Lemma stop_twice_witness :
  let w := snd (start (Sample.world Sample.quiet [Sample.a])) in
  let w1 := snd (stop w) in
  let w2 := snd (stop w1) in
  controller w2 = controller w1 /\ loop_tasks w2 = loop_tasks w1.
Proof.
  intros w w1 w2.
  exact (stop_twice w w1 w2 ltac:(vm_compute; reflexivity)
           ltac:(vm_compute; reflexivity)).
Defined.

(** X12: when the [asyncio.gather] of [stop] does not return (it is
    cancelled, or raises), [stop] ends the same way; every task of
    [_tasks] has had its [cancel()] all the same, and the controller is
    untouched: [_task] is not assigned. *)
Theorem stop_interrupted (w : World) (o : Outcome unit) :
  let logged := record_effect (Log INFO "Stopping controller tasks.") w in
  resolve (env w) (trace logged) (asyncio_gather (_tasks (controller w))) = o ->
  o <> Done tt ->
  fst (stop w) = o
  /\ controller (snd (stop w)) = controller w
  /\ loop_tasks (snd (stop w)) = cancel_all (_tasks (controller w)) (loop_tasks w).
Proof.
  intros logged Ho Hne. rewrite stop_unfold.
  unfold bind, await, await_value, modify_controller. fold logged.
  change (env (set_loop_tasks _ logged)) with (env w).
  change (trace (set_loop_tasks _ logged)) with (trace logged).
  rewrite Ho. destruct o as [[]| e | |]; [contradiction | | |];
    simpl; repeat split; reflexivity.
Qed.

Lemma stop_interrupted_witness :
  let w := snd (start (Sample.world Scenario.cancelling [Sample.a])) in
  fst (stop w) = Cancelled
  /\ controller (snd (stop w)) = controller w
  /\ loop_tasks (snd (stop w)) = map cancel_requested started_tasks.
Proof.
  intros w.
  exact (stop_interrupted w Cancelled ltac:(vm_compute; reflexivity)
           ltac:(discriminate)).
Defined.

(** ** deploy_or_delay_start and the job watcher, again *)

(** X13: [deploy_or_delay_start] never writes to the controller: the index
    learns of a build from the deployment watcher only.  So a second call
    for a commit the index does not hold yet, made before the watcher has
    indexed the first deployment, awaits [Build.deploy] a second time. *)
Theorem deploy_twice_without_indexing
    (r tb : string) (p : option Z) (c : string) (w : World) :
  let w1 := snd (deploy_or_delay_start r tb p c w) in
  let w2 := snd (deploy_or_delay_start r tb p c w1) in
  controller w1 = controller w /\ loop_tasks w1 = loop_tasks w
  /\ (BuildsDb.get_for_commit (db (controller w)) r tb p c = None ->
      trace w2
      = (trace w ++ [Await (Build_deploy r tb p c);
                     Await (Build_deploy r tb p c)])%list).
Proof.
  intros w1 w2.
  assert (E : forall v,
             snd (deploy_or_delay_start r tb p c v)
             = record_effect
                 (Await match BuildsDb.get_for_commit (db (controller v)) r tb p c with
                        | Some b => Build_call Method.start b
                        | None => Build_deploy r tb p c
                        end) v).
  { intros v. unfold deploy_or_delay_start, bind, get_world.
    destruct (BuildsDb.get_for_commit (db (controller v)) r tb p c);
      apply await_world. }
  subst w2 w1. rewrite !E. simpl. repeat split.
  intros Hnone. rewrite Hnone. now rewrite <- app_assoc.
Qed.

Lemma deploy_twice_without_indexing_witness :
  let w := Sample.world Sample.quiet [Sample.f] in
  let w1 := snd (deploy_or_delay_start "oca/web" "16.0" None "a" w) in
  trace (snd (deploy_or_delay_start "oca/web" "16.0" None "a" w1))
  = [Await (Build_deploy "oca/web" "16.0" None "a");
     Await (Build_deploy "oca/web" "16.0" None "a")].
Proof.
  intros w w1.
  exact (proj2 (proj2 (deploy_twice_without_indexing "oca/web" "16.0" None "a" w))
           eq_refl).
Defined.

(** X14: the job watcher does not catch what a hook raises: when the hook
    of an event raises, the watcher ends there with that exception, the
    events behind it unread (restarting is the supervisor's). *)
Theorem job_watcher_hook_failure
    (fuel : nat) (event_type : string) (job : Job) (n kind : string)
    (build : Build) (e : exn) (w : World) :
  let w0 := record_effect (Await watch_jobs_next) w in
  let w1 := record_effect (Log DEBUG (job_event_message event_type job)) w0 in
  let hook := Build_call (hook_for kind (job_status job)) build in
  resolve (env w) (trace w) watch_jobs_next = Done tt ->
  next_job (env w) (trace w) = Some (event_type, job) ->
  is_added_or_modified event_type = true ->
  job_labels job !! "runboat/build" = Some n -> n <> "" ->
  job_labels job !! "runboat/job-kind" = Some kind ->
  kind = "initialize" \/ kind = "cleanup" ->
  BuildsDb.get (db (controller w)) n = Some build ->
  resolve (env w) (trace w1) hook = Raised e ->
  job_watcher (S fuel) w = (Raised e, record_effect (Await hook) w1).
Proof.
  intros w0 w1 hook Hnext Hev Het Hn Hne Hk Hkind Hget Hres.
  unfold job_watcher. simpl. unfold bind at 1.
  unfold await_value at 1. rewrite Hnext, Hev. fold w0.
  unfold bind at 1.
  rewrite (job_watcher_step_added event_type job n kind w0 Het Hn Hne Hk Hkind).
  fold w1. unfold bind at 1.
  pose proof (job_watcher_resolve_build_spec n w1) as Hlook.
  change (db (controller w1)) with (db (controller w)) in Hlook.
  rewrite Hget in Hlook. rewrite Hlook.
  unfold await, await_value. change (env w1) with (env w).
  fold hook. now rewrite Hres.
Qed.

Lemma job_watcher_hook_failure_witness :
  let job := Sample.job "f" "initialize" (Some 1) None in
  let w := Sample.world (Scenario.job_events "ADDED" job) [Sample.f] in
  job_watcher 5 w
  = (Raised (Error "patch failed"),
     {| env := env w; controller := controller w; loop_tasks := [];
        trace := [Await watch_jobs_next; Log DEBUG "k8s ADDED Job initialize f";
                  Await (Build_call Method.on_initialize_succeeded Sample.f)] |}).
Proof.
  intros job w.
  exact (job_watcher_hook_failure 4 "ADDED" job "f" "initialize" Sample.f
           (Error "patch failed") w eq_refl eq_refl eq_refl eq_refl
           ltac:(discriminate) eq_refl (or_introl eq_refl) eq_refl eq_refl).
Defined.

(** X15: when the index has no build of the name and [Build.from_name]
    raises, the body of the job watcher ends with that exception and no
    hook is awaited. *)
Theorem job_watcher_lookup_failure
    (event_type : string) (job : Job) (n kind : string) (e : exn) (w : World) :
  let w0 := record_effect (Log DEBUG (job_event_message event_type job)) w in
  is_added_or_modified event_type = true ->
  job_labels job !! "runboat/build" = Some n -> n <> "" ->
  job_labels job !! "runboat/job-kind" = Some kind ->
  kind = "initialize" \/ kind = "cleanup" ->
  BuildsDb.get (db (controller w)) n = None ->
  resolve (env w) (trace w0) (Build_from_name n) = Raised e ->
  job_watcher_step event_type job w
  = (Raised e, record_effect (Await (Build_from_name n)) w0)
  /\ build_calls (trace (snd (job_watcher_step event_type job w)))
     = build_calls (trace w).
Proof.
  intros w0 Het Hn Hne Hk Hkind Hget Hres.
  assert (E : job_watcher_step event_type job w
              = (Raised e, record_effect (Await (Build_from_name n)) w0)).
  { rewrite (job_watcher_step_added event_type job n kind w Het Hn Hne Hk Hkind).
    fold w0. unfold bind.
    pose proof (job_watcher_resolve_build_spec n w0) as Hlook.
    change (db (controller w0)) with (db (controller w)) in Hlook.
    rewrite Hget in Hlook. rewrite Hlook.
    unfold await_value. change (env w0) with (env w). now rewrite Hres. }
  split; [exact E|]. rewrite E. simpl.
  rewrite !build_calls_app. simpl. now rewrite !app_nil_r.
Qed.

Lemma job_watcher_lookup_failure_witness :
  let job := Sample.job "zz" "cleanup" None None in
  let w := Sample.world (Scenario.job_events "MODIFIED" job) [Sample.f] in
  fst (job_watcher_step "MODIFIED" job w) = Raised (Error "api unreachable")
  /\ build_calls (trace (snd (job_watcher_step "MODIFIED" job w))) = [].
Proof.
  intros job w.
  pose proof (job_watcher_lookup_failure "MODIFIED" job "zz" "cleanup"
                (Error "api unreachable") w eq_refl eq_refl ltac:(discriminate)
                eq_refl (or_intror eq_refl) eq_refl eq_refl) as [E H].
  split; [now rewrite E | exact H].
Defined.

(** X16: a job event of a type other than ADDED, MODIFIED and DELETED, for
    a labelled job of kind initialize or cleanup, is logged as an error
    and otherwise ignored: no lookup, no hook, and the watcher goes on. *)
Theorem job_watcher_unexpected_event_type
    (event_type : string) (job : Job) (w : World) :
  truthy_str (job_labels job !! "runboat/build") = true ->
  is_job_kind (job_labels job !! "runboat/job-kind") = true ->
  event_type <> "ADDED" -> event_type <> "MODIFIED" -> event_type <> "DELETED" ->
  job_watcher_step event_type job w
  = (Done tt,
     record_effect (Log ERROR ("Unexpected k8s event type " ++ event_type ++ "."))
       (record_effect (Log DEBUG (job_event_message event_type job)) w)).
Proof.
  intros Hlab Hkind Ha Hm Hd. unfold job_watcher_step.
  rewrite Hlab, Hkind. simpl negb. cbv iota.
  unfold is_added_or_modified.
  rewrite (proj2 (String.eqb_neq _ _) Ha), (proj2 (String.eqb_neq _ _) Hm),
    (proj2 (String.eqb_neq _ _) Hd).
  reflexivity.
Qed.

Lemma job_watcher_unexpected_event_type_witness :
  let job := Sample.job "f" "initialize" None None in
  let w := Sample.world Sample.quiet [Sample.f] in
  job_watcher_step "BOOKMARK" job w
  = (Done tt,
     {| env := Sample.quiet; controller := controller w; loop_tasks := [];
        trace := [Log DEBUG "k8s BOOKMARK Job initialize f";
                  Log ERROR "Unexpected k8s event type BOOKMARK."] |}).
Proof.
  intros job w.
  exact (job_watcher_unexpected_event_type "BOOKMARK" job w eq_refl eq_refl
           ltac:(discriminate) ltac:(discriminate) ltac:(discriminate)).
Defined.

(** ** Across restarts *)

(** X17: restarts do not widen what a loop does.  Under [walking_dead],
    however often it restarts its function, all that is added to the
    effects of the function are the restart logs, the logs of unhandled
    exceptions and the backoff sleeps: the supervised deployment watcher
    still awaits no Build call at all, the supervised job watcher only
    lookups and hooks, and each supervised scheduler only its own
    action. *)
Theorem supervised_loops_effects (n fuel : nat) (w : World) :
  frame keeps_tasks (supervised_effect deployment_watcher_effect) w
    (snd (walking_dead fuel (bound_method deployment_watcher_fn n) w))
  /\ frame eq (supervised_effect job_watcher_effect) w
       (snd (walking_dead fuel (bound_method job_watcher_fn n) w))
  /\ frame eq (supervised_effect (scheduler_effect Method.initialize)) w
       (snd (walking_dead fuel (bound_method initializer_fn n) w))
  /\ frame eq (supervised_effect (scheduler_effect Method.stop)) w
       (snd (walking_dead fuel (bound_method stopper_fn n) w))
  /\ frame eq (supervised_effect (scheduler_effect Method.undeploy)) w
       (snd (walking_dead fuel (bound_method undeployer_fn n) w)).
Proof.
  assert (R : forall c : Controller, c = c) by reflexivity.
  assert (T : forall a b c : Controller, a = b -> b = c -> a = c) by congruence.
  destruct (stays_schedulers n) as (Hi & Hs & Hu).
  split; [|split; [|split; [|split]]].
  - apply (stays_walking_dead keeps_tasks_refl keeps_tasks_trans).
    apply stays_deployment_watcher.
  - apply (stays_walking_dead R T). apply stays_job_watcher.
  - apply (stays_walking_dead R T). exact Hi.
  - apply (stays_walking_dead R T). exact Hs.
  - apply (stays_walking_dead R T). exact Hu.
Qed.

Lemma supervised_loops_effects_witness :
  let w := Sample.world Sample.flaky [Sample.a] in
  _wakeup_event
    (controller (snd (walking_dead 3 (bound_method deployment_watcher_fn 2) w)))
  = false.
Proof.
  intros w.
  destruct (supervised_loops_effects 2 3 w) as ((_ & _ & (_ & _ & H) & _) & _).
  exact (H eq_refl).
Defined.

(** X18: [start] does not check whether the loops are running: a second
    [start] creates a second task for each of the five loops, behind the
    first five, and [_tasks] then holds ten handles. *)
Theorem start_twice (w : World) :
  let w2 := snd (start (snd (start w))) in
  let n := length (loop_tasks w) in
  loop_tasks w2 = (loop_tasks w ++ started_tasks ++ started_tasks)%list
  /\ _tasks (controller w2)
     = (_tasks (controller w) ++ map (Nat.add n) (seq 0 10))%list
  /\ db (controller w2) = db (controller w).
Proof.
  intros w2 n. subst w2.
  destruct (start_world (snd (start w))) as (Hl2 & Hd2 & _).
  destruct (start_world w) as (Hl1 & Hd1 & _).
  destruct (start_spec (snd (start w))) as (_ & Ht2 & _).
  destruct (start_spec w) as (_ & Ht1 & _).
  split; [|split].
  - rewrite Hl2, Hl1. now rewrite <- app_assoc.
  - rewrite Ht2, Ht1, Hl1, <- app_assoc, length_app. simpl. fold n.
    f_equal. repeat (apply (f_equal2 cons); [lia|]). reflexivity.
  - now rewrite Hd2.
Qed.

(** X19: on an empty index no scheduler acts, whatever the limits are: the
    three passes leave the world as it is.  That is the state right after
    the deployment watcher has (re)started and reset the index. *)
Theorem schedulers_idle_on_empty_index (w : World) :
  db (controller w) = BuildsDb.empty ->
  initializer_wake w = (Done tt, w)
  /\ stopper_wake w = (Done tt, w)
  /\ undeployer_wake w = (Done tt, w).
Proof.
  intros Hdb. destruct scheduler_shapes as (-> & -> & ->).
  split; [|split]; apply bounded_pass_idle; right; rewrite Hdb;
    unfold BuildsDb.to_initialize, BuildsDb.oldest_started, BuildsDb.oldest_stopped;
    simpl; apply firstn_nil.
Qed.

Lemma schedulers_idle_on_empty_index_witness :
  let w := Sample.world Sample.quiet [] in
  initializer_wake w = (Done tt, w)
  /\ stopper_wake w = (Done tt, w)
  /\ undeployer_wake w = (Done tt, w).
Proof.
  intros w. exact (schedulers_idle_on_empty_index w eq_refl).
Defined.
